(** * autobrr: IRC network supervisor, login handler and announce parsing

    A shallow embedding of

    - [internal/irc/service.go]: the network supervisor ([service]) that owns
      the map of IRC handlers and reconciles it with the stored configuration;
    - [internal/http/auth.go]: the cookie-session login handler;
    - [internal/indexer/definitions/red.yaml]: the Redacted announce
      definition (pattern, vars, torrenturl template).

    Go maps are [gmap]s, Go string sets ([map[string]struct{}]) are
    [gset]s, slices are lists, [int]/[int64] are [Z].  Stateful code is
    written in a small state monad over the supervisor and the sequence of
    operations it performs on its collaborators. *)

From Stdlib Require Import ZArith Ascii String.
From stdpp Require Import gmap strings list fin_maps.

Local Open Scope Z_scope.

(** Go's [error]; [None] is [nil]. *)
Definition error := string.

(* ===================================================================== *)
(** * Domain types (package [domain]) *)
(* ===================================================================== *)

(** Modelled from the spec: the declarations of package [domain] (section
    3: Network, Channel).  The records carry the fields that [service.go]
    reads; [GetNetworksWithHealth] lists the fields of a network and of a
    channel. *)
Module NickServ.
Record t := mk { Account : string; Password : string }.
End NickServ.

Module IrcChannel.
Record t := mk {
    ID : Z;
    Enabled : bool;
    Name : string;
    Password : string;
    Detached : bool;
  }.
End IrcChannel.

Module IrcNetwork.
  (** [Channels] is a Go slice: [None] is the nil slice, which
      [UpdateNetwork] tells apart from an empty one. *)
Record t := mk {
    ID : Z;
    Name : string;
    Enabled : bool;
    Server : string;
    Port : Z;
    TLS : bool;
    Pass : string;
    InviteCommand : string;
    NickServ : NickServ.t;
    Channels : option (list IrcChannel.t);
  }.

  (** [for _, c := range n.Channels]: ranging over nil visits nothing. *)
Definition chans (n : t) : list IrcChannel.t := default [] (Channels n).

Definition setChannels (cs : option (list IrcChannel.t)) (n : t) : t :=
    mk (ID n) (Name n) (Enabled n) (Server n) (Port n) (TLS n) (Pass n)
       (InviteCommand n) (NickServ n) cs.
End IrcNetwork.

(** One announce line rule of an indexer definition ([parse.lines[]]). *)
Record ParseLine := {
  pattern : string;
  vars : list string;
}.

(** An indexer definition, as far as the YAML definitions fill it. *)
Record IndexerDefinition := {
  identifier : string;
  irc_server : string;
  parse_lines : list ParseLine;
  torrenturl : string;
}.

(* ===================================================================== *)
(** * The IRC supervisor (package [irc], [service.go]) *)
(* ===================================================================== *)

Module Irc.

(** [type handlerKey struct { server string; nick string }] *)
Definition handlerKey : Type := string * string.
Definition mkKey (server nick : string) : handlerKey := (server, nick).

(** [handlerKey{network.Server, network.NickServ.Account}] *)
Definition keyOf (n : IrcNetwork.t) : handlerKey :=
  mkKey (IrcNetwork.Server n) (NickServ.Account (IrcNetwork.NickServ n)).

(** The methods of [*Handler] that the supervisor calls.  The errors they
    return are only logged by the supervisor and never change its control
    flow, so a call is recorded without its result. *)
Module Handler.
Inductive call :=
  | Run
  | Stop
  | Restart
  | UpdateNetwork (n : IrcNetwork.t)
  | SetNetwork (n : IrcNetwork.t)
  | HandleNickChange (nick : string)
  | HandleNickServIdentify (account password : string)
  | HandlePartChannel (name : string)
  | HandleJoinChannel (name password : string)
  | InitIndexers (definitions : list IndexerDefinition).
End Handler.

(** [*Handler] is defined in [handler.go], which is not modelled: a
    handler is any type with the observations the supervisor makes of it
    ([client.Connected()], [GetNetwork()]), its constructor, and the effect
    of each method on the handler's own state.  [GetNetwork] is read once
    per reconcile, as the local variable [handler] of
    [checkIfNetworkRestartNeeded] is. *)
Class HandlerOps (H : Type) := {
  NewHandler : IrcNetwork.t → list IndexerDefinition → H;
  Connected : H → bool;
  GetNetwork : H → IrcNetwork.t;
  exec : Handler.call → H → H;
}.

(** [domain.IrcRepo], the part of the interface used below.  Every method
    takes the repository state and returns its Go results with the new
    state.  [RepoUpdateNetwork] is the interface's [UpdateNetwork]. *)
Class IrcRepo (R : Type) := {
  FindActiveNetworks : R → (list IrcNetwork.t * option error) * R;
  ListChannels : Z → R → (option (list IrcChannel.t) * option error) * R;
  StoreNetworkChannels : Z → list IrcChannel.t → R → option error * R;
  RepoUpdateNetwork : IrcNetwork.t → R → option error * R;
}.

(** [indexer.Service.GetIndexersByIRCNetwork] *)
Class IndexerService := {
  GetIndexersByIRCNetwork : string → list IndexerDefinition;
}.

(** What the supervisor does to its collaborators, in program order. *)
Inductive Event :=
| Call (k : handlerKey) (c : Handler.call)  (* [handler.c(..)] on the calling goroutine *)
| Go (k : handlerKey) (c : Handler.call)    (* [go func() { handler.c() }()] *)
| MapStore (k : handlerKey)                 (* [s.handlers[k] = handler] *)
| MapDelete (k : handlerKey)                (* [delete(s.handlers, k)] *)
| Lock                                      (* [s.lock.Lock()] *)
| Unlock                                    (* [s.lock.Unlock()] *)
| WGAdd (n : Z)                             (* [s.stopWG.Add(n)] *)
| WGDone                                    (* [s.stopWG.Done()] *)
| WGWait.                                   (* [s.stopWG.Wait()] *)

Section Supervisor.
Context {H R : Type} `{!HandlerOps H} `{!IrcRepo R} `{!IndexerService}.

  (** [type service struct].  The filter, indexer and release services are
      fixed collaborators; [stopWG] is the counter of the wait group and
      [lock] tells whether the mutex is held. *)
Record service := mkService {
    repo : R;
    indexerMap : gmap string string;
    handlers : gmap handlerKey H;
    stopWG : Z;
    lock : bool;
  }.

  (** The supervisor together with the operations performed so far. *)
Record world := mkWorld {
    svc : service;
    trace : list Event;
  }.

Definition M (A : Type) : Type := world → A * world.

#[global] Instance M_ret : MRet M := λ A a w, (a, w).
#[global] Instance M_bind : MBind M := λ A B f m w, let '(a, w') := m w in f a w'.

Definition emit (e : Event) : M unit :=
    λ w, (tt, mkWorld (svc w) (trace w ++ [e])).
Definition getS : M service := λ w, (svc w, w).
Definition modS (f : service → service) : M unit :=
    λ w, (tt, mkWorld (f (svc w)) (trace w)).

Definition withHandlers (f : gmap handlerKey H → gmap handlerKey H) (s : service) : service :=
    mkService (repo s) (indexerMap s) (f (handlers s)) (stopWG s) (lock s).
Definition withRepo (r : R) (s : service) : service :=
    mkService r (indexerMap s) (handlers s) (stopWG s) (lock s).
Definition withStopWG (f : Z → Z) (s : service) : service :=
    mkService (repo s) (indexerMap s) (handlers s) (f (stopWG s)) (lock s).
Definition withLock (b : bool) (s : service) : service :=
    mkService (repo s) (indexerMap s) (handlers s) (stopWG s) b.

  (** A repository method run on the supervisor's repository. *)
Definition liftRepo {A} (f : R → A * R) : M A :=
    λ w, let '(a, r) := f (repo (svc w)) in
         (a, mkWorld (withRepo r (svc w)) (trace w)).

  (** A method call on the handler stored under [k]: handlers are held by
      pointer, so the effect lands in the map entry. *)
Definition call (k : handlerKey) (c : Handler.call) : M unit :=
    emit (Call k c);; modS (withHandlers (alter (exec c) k)).

  (** [go func() { handler.c() }()]: the goroutine is started; its effect
      on the handler is not part of the state at return. *)
Definition go (k : handlerKey) (c : Handler.call) : M unit := emit (Go k c).

Definition lockM : M unit := emit Lock;; modS (withLock true).
Definition unlockM : M unit := emit Unlock;; modS (withLock false).
Definition wgAdd (n : Z) : M unit := emit (WGAdd n);; modS (withStopWG (Z.add n)).
Definition wgDone : M unit := emit WGDone;; modS (withStopWG (λ c, c - 1)).

  (** [for _, x := range l { body }] *)
Fixpoint forM_ {A} (l : list A) (body : A → M unit) : M unit :=
    match l with
    | [] => mret tt
    | x :: l' => body x;; forM_ l' body
    end.

  (** The body shared by [StartHandlers] and the not-found branch of
      [startNetwork]: list the channels, build the handler, store it under
      its key, and start [Run] in a goroutine between [Add(1)] and
      [Done()]. *)
Definition addAndRun (network : IrcNetwork.t) : M unit :=
    lockM;;
    '(channels, _) ← liftRepo (ListChannels (IrcNetwork.ID network));
    let network := IrcNetwork.setChannels channels network in
    let definitions := GetIndexersByIRCNetwork (IrcNetwork.Server network) in
    let handler := NewHandler network definitions in
    emit (MapStore (keyOf network));;
    modS (withHandlers (insert (keyOf network) handler));;
    unlockM;;
    wgAdd 1;;
    go (keyOf network) Handler.Run;;
    wgDone.

  (** [func (s *service) StartHandlers()] *)
Definition StartHandlers : M unit :=
    '(networks, _) ← liftRepo FindActiveNetworks;
    forM_ networks (λ network,
      if negb (IrcNetwork.Enabled network) then mret tt
      else addAndRun network).

  (** [func (s *service) StopHandlers()].  Go leaves the iteration order of
      a map open; the model visits the entries in the order of
      [map_to_list]. *)
Definition StopHandlers : M unit :=
    s ← getS;
    forM_ (map_to_list (handlers s)) (λ kh, call kh.1 Handler.Stop).

  (** [func (s *service) startNetwork(network domain.IrcNetwork) error] *)
Definition startNetwork (network : IrcNetwork.t) : M (option error) :=
    s ← getS;
    match handlers s !! keyOf network with
    | Some existingHandler =>
        (if negb (Connected existingHandler)
         then go (keyOf network) Handler.Run
         else mret tt);;
        mret None
    | None =>
        addAndRun network;;
        mret None
    end.

  (** The channel bookkeeping of [checkIfNetworkRestartNeeded]
      (lines 214-250). *)

  (** [for _, channel := range network.Channels { expectedChannels[channel.Name] = struct{}{} }] *)
Definition expectedChannels (networkChannels : list IrcChannel.t) : gset string :=
    foldl (λ m channel, {[IrcChannel.Name channel]} ∪ m) ∅ networkChannels.

  (** The loop over [handler.Channels]: fills [handlerChannels] and
      appends to [channelsToLeave] every name missing from
      [expectedChannels]. *)
Definition leaveLoop (expected : gset string) (handlerChans : list IrcChannel.t)
    : gset string * list string :=
    foldl (λ '(handlerChannels, channelsToLeave) handlerChan,
             let handlerChannels := {[IrcChannel.Name handlerChan]} ∪ handlerChannels in
             if decide (IrcChannel.Name handlerChan ∈ expected)
             then (handlerChannels, channelsToLeave)
             else (handlerChannels, channelsToLeave ++ [IrcChannel.Name handlerChan]))
          (∅, []) handlerChans.

  (** The second loop over [network.Channels]: appends to [channelsToJoin]
      every channel whose name is missing from [handlerChannels]. *)
Definition joinLoop (handlerChannels : gset string) (networkChannels : list IrcChannel.t)
    : list IrcChannel.t :=
    foldl (λ channelsToJoin channel,
             if decide (IrcChannel.Name channel ∈ handlerChannels)
             then channelsToJoin
             else channelsToJoin ++ [channel])
          [] networkChannels.

  (** The [if .. else if ..] chain that sets [restartNeeded]. *)
Definition restartNeeded (handler network : IrcNetwork.t) : bool :=
    if negb (bool_decide (IrcNetwork.Server handler = IrcNetwork.Server network)) then true
    else if negb (bool_decide (IrcNetwork.Port handler = IrcNetwork.Port network)) then true
    else if negb (bool_decide (IrcNetwork.TLS handler = IrcNetwork.TLS network)) then true
    else if negb (bool_decide (IrcNetwork.InviteCommand handler = IrcNetwork.InviteCommand network)) then true
    else false.

  (** [func (s *service) checkIfNetworkRestartNeeded(network *domain.IrcNetwork) error] *)
Definition checkIfNetworkRestartNeeded (network : IrcNetwork.t) : M (option error) :=
    let key := keyOf network in
    s ← getS;
    match handlers s !! key with
    | Some existingHandler =>
        if Connected existingHandler then
          let handler := GetNetwork existingHandler in
          if restartNeeded handler network then
            call key (Handler.UpdateNetwork network);;
            go key Handler.Restart;;
            mret None
          else
            let account := NickServ.Account (IrcNetwork.NickServ network) in
            let password := NickServ.Password (IrcNetwork.NickServ network) in
            (if negb (bool_decide (NickServ.Account (IrcNetwork.NickServ handler) = account))
             then call key (Handler.HandleNickChange account)
             else if negb (bool_decide (NickServ.Password (IrcNetwork.NickServ handler) = password))
             then call key (Handler.HandleNickServIdentify account password)
             else mret tt);;
            let expected := expectedChannels (IrcNetwork.chans network) in
            let '(handlerChannels, channelsToLeave) :=
              leaveLoop expected (IrcNetwork.chans handler) in
            let channelsToJoin := joinLoop handlerChannels (IrcNetwork.chans network) in
            forM_ channelsToLeave (λ leaveChannel,
              call key (Handler.HandlePartChannel leaveChannel));;
            forM_ channelsToJoin (λ joinChannel,
              call key (Handler.HandleJoinChannel (IrcChannel.Name joinChannel)
                                                  (IrcChannel.Password joinChannel)));;
            call key (Handler.SetNetwork network);;
            let definitions := GetIndexersByIRCNetwork (IrcNetwork.Server network) in
            call key (Handler.InitIndexers definitions);;
            mret None
        else mret None
    | None =>
        _ ← startNetwork network;
        mret None
    end.

  (** [func (s *service) StopNetwork(key handlerKey) error] *)
Definition StopNetwork (key : handlerKey) : M (option error) :=
    s ← getS;
    match handlers s !! key with
    | Some _ => call key Handler.Stop;; mret None
    | None => mret None
    end.

  (** [func (s *service) StopAndRemoveNetwork(key handlerKey) error] *)
Definition StopAndRemoveNetwork (key : handlerKey) : M (option error) :=
    s ← getS;
    match handlers s !! key with
    | Some _ =>
        call key Handler.Stop;;
        emit (MapDelete key);;
        modS (withHandlers (delete key));;
        mret None
    | None => mret None
    end.

  (** [func (s *service) StopNetworkIfRunning(key handlerKey) error] *)
Definition StopNetworkIfRunning (key : handlerKey) : M (option error) :=
    s ← getS;
    match handlers s !! key with
    | Some _ => call key Handler.Stop;; mret None
    | None => mret None
    end.

  (** [func (s *service) UpdateNetwork(ctx context.Context, network *domain.IrcNetwork) error] *)
Definition UpdateNetwork (network : IrcNetwork.t) : M (option error) :=
    err ← match IrcNetwork.Channels network with
          | Some channels =>
              liftRepo (StoreNetworkChannels (IrcNetwork.ID network) channels)
          | None => mret None
          end;
    match err with
    | Some e => mret (Some e)
    | None =>
        err ← liftRepo (RepoUpdateNetwork network);
        match err with
        | Some e => mret (Some e)
        | None =>
            if IrcNetwork.Enabled network then
              err ← checkIfNetworkRestartNeeded network;
              match err with
              | Some _ => mret (Some ("could not restart network: " +:+ IrcNetwork.Name network))
              | None => mret None
              end
            else
              err ← StopAndRemoveNetwork (keyOf network);
              match err with
              | Some _ => mret (Some ("could not stop network: " +:+ IrcNetwork.Name network))
              | None => mret None
              end
        end
    end.

End Supervisor.

(** ** Vocabulary of the statements about the supervisor *)

(** The channel names of a list of channels, in order. *)
Definition names (cs : list IrcChannel.t) : list string := IrcChannel.Name <$> cs.

(** The handler's channel names that the network does not list, and the
    network's channels whose name the handler does not have: the two set
    differences, with names compared as they are written. *)
Definition toLeave (handlerChans networkChans : list IrcChannel.t) : list string :=
  filter (λ name, name ∉ names networkChans) (names handlerChans).

Definition toJoin (handlerChans networkChans : list IrcChannel.t) : list IrcChannel.t :=
  filter (λ c, IrcChannel.Name c ∉ names handlerChans) networkChans.

(** [strings.ToLower] on ASCII text. *)
Definition lowerChar (c : ascii) : ascii :=
  if ((65 <=? N_of_ascii c) && (N_of_ascii c <=? 90))%N
  then ascii_of_N (N_of_ascii c + 32)
  else c.

Fixpoint ToLower (s : string) : string :=
  match s with
  | EmptyString => EmptyString
  | String c s' => String (lowerChar c) (ToLower s')
  end.

(** The two differences as the specification words them (section 4.1,
    "both sides lowercased"): names are compared after [ToLower]. *)
Definition toLeaveLowercased (handlerChans networkChans : list IrcChannel.t) : list string :=
  filter (λ name, ToLower name ∉ ToLower <$> names networkChans) (names handlerChans).

Definition toJoinLowercased (handlerChans networkChans : list IrcChannel.t)
  : list IrcChannel.t :=
  filter (λ c, ToLower (IrcChannel.Name c) ∉ ToLower <$> names handlerChans) networkChans.

(** The fields that [restartNeeded] compares. *)
Definition sameTransport (handler network : IrcNetwork.t) : Prop :=
  IrcNetwork.Server handler = IrcNetwork.Server network
  ∧ IrcNetwork.Port handler = IrcNetwork.Port network
  ∧ IrcNetwork.TLS handler = IrcNetwork.TLS network
  ∧ IrcNetwork.InviteCommand handler = IrcNetwork.InviteCommand network.

Definition transportDiffers (handler network : IrcNetwork.t) : Prop :=
  IrcNetwork.Server handler ≠ IrcNetwork.Server network
  ∨ IrcNetwork.Port handler ≠ IrcNetwork.Port network
  ∨ IrcNetwork.TLS handler ≠ IrcNetwork.TLS network
  ∨ IrcNetwork.InviteCommand handler ≠ IrcNetwork.InviteCommand network.

(** The nick change or the re-identification a reconcile starts with. *)
Definition identityCalls (handler network : IrcNetwork.t) : list Handler.call :=
  let account := NickServ.Account (IrcNetwork.NickServ network) in
  let password := NickServ.Password (IrcNetwork.NickServ network) in
  if decide (NickServ.Account (IrcNetwork.NickServ handler) = account) then
    if decide (NickServ.Password (IrcNetwork.NickServ handler) = password) then []
    else [Handler.HandleNickServIdentify account password]
  else [Handler.HandleNickChange account].

(** One [PART] per name to leave, one [JOIN] with its password per channel
    to join. *)
Definition partCalls (handler network : IrcNetwork.t) : list Handler.call :=
  Handler.HandlePartChannel
    <$> toLeave (IrcNetwork.chans handler) (IrcNetwork.chans network).

Definition joinCalls (handler network : IrcNetwork.t) : list Handler.call :=
  (λ c, Handler.HandleJoinChannel (IrcChannel.Name c) (IrcChannel.Password c))
    <$> toJoin (IrcNetwork.chans handler) (IrcNetwork.chans network).

(** A call that changes the nick, and a call that disconnects or
    (re)connects the session. *)
Definition isNickChange (c : Handler.call) : bool :=
  match c with
  | Handler.HandleNickChange _ => true
  | _ => false
  end.

Definition isReconnect (c : Handler.call) : bool :=
  match c with
  | Handler.Run | Handler.Stop | Handler.Restart => true
  | _ => false
  end.

(** An event that starts a goroutine, and the wait on the wait group. *)
Definition isSpawn (e : Event) : bool :=
  match e with
  | Go _ _ => true
  | _ => false
  end.

Definition isWait (e : Event) : bool :=
  match e with
  | WGWait => true
  | _ => false
  end.

Section Vocabulary.
Context {H R : Type} `{!HandlerOps H} `{!IrcRepo R} `{!IndexerService}.

(** The snapshot swap and the indexer refresh that end a reconcile. *)
Definition refreshCalls (network : IrcNetwork.t) : list Handler.call :=
  [Handler.SetNetwork network;
   Handler.InitIndexers (GetIndexersByIRCNetwork (IrcNetwork.Server network))].

(** The handler after a sequence of method calls. *)
Definition applyCalls (cs : list Handler.call) (h : H) : H :=
  foldl (λ h c, exec c h) h cs.

(** The world after the calls [cs], in order and on the calling goroutine,
    on the handler stored under [k]: the calls are appended to the trace
    and nothing else changes. *)
Definition after (k : handlerKey) (cs : list Handler.call) (w : world (H:=H) (R:=R))
  : world :=
  mkWorld (withHandlers (alter (applyCalls cs) k) (svc w)) (trace w ++ (Call k <$> cs)).

(** [w'] differs from [w] at most in the handler stored under [k]. *)
Definition onlyEntry (k : handlerKey) (w w' : world (H:=H) (R:=R)) : Prop :=
  repo (svc w') = repo (svc w)
  ∧ indexerMap (svc w') = indexerMap (svc w)
  ∧ stopWG (svc w') = stopWG (svc w)
  ∧ lock (svc w') = lock (svc w)
  ∧ ∀ k', k' ≠ k → handlers (svc w') !! k' = handlers (svc w) !! k'.

(** Persisting [network] fails with [e]: [StoreNetworkChannels] (called
    for a non-nil channel list) returns [e], or it succeeds and the
    repository's [UpdateNetwork] returns [e]. *)
Definition persistFails (network : IrcNetwork.t) (r : R) (e : error) : Prop :=
  match IrcNetwork.Channels network with
  | Some channels =>
      let stored := StoreNetworkChannels (IrcNetwork.ID network) channels r in
      stored.1 = Some e
      ∨ (stored.1 = None ∧ (RepoUpdateNetwork network stored.2).1 = Some e)
  | None => (RepoUpdateNetwork network r).1 = Some e
  end.

End Vocabulary.

End Irc.

(* ===================================================================== *)
(** * The login handler (package [http], [auth.go]) *)
(* ===================================================================== *)

Module Http.

(** [net/http]'s status codes used by [auth.go]. *)
Definition StatusNoContent : Z := 204.
Definition StatusBadRequest : Z := 400.
Definition StatusUnauthorized : Z := 401.
Definition StatusForbidden : Z := 403.

(** [http.SameSite] *)
Inductive SameSite :=
| SameSiteDefaultMode
| SameSiteLaxMode
| SameSiteStrictMode
| SameSiteNoneMode.

(** [sessions.Options], the fields [login] writes. *)
Record Options := mkOptions {
  Path : string;
  Secure : bool;
  HttpOnly : bool;
  SameSiteMode : SameSite;
}.

(** A value stored in [session.Values] (Go's [interface{}]): the type
    assertion [.(bool)] succeeds on [VBool] only. *)
Inductive value :=
| VBool (b : bool)
| VString (s : string)
| VInt (n : Z).

(** [sessions.Session]: the values and the options copied from the store
    when the session was obtained. *)
Record Session := mkSession {
  SessionName : string;
  Values : gmap string value;
  SessionOptions : Options;
}.

(** A [Set-Cookie] header written by [session.Save]. *)
Record Cookie := mkCookie {
  CookieName : string;
  CookieValues : gmap string value;
  CookieOptions : Options;
}.

(** [domain.User], decoded from the request body. *)
Record User := mkUser {
  Username : string;
  Password : string;
}.

(** [*http.Request] as the handlers read it: the result of decoding the
    JSON body ([None] when [Decode] returns an error), the
    [X-Forwarded-Proto] header (empty when absent) and the session cookies
    that decode under the store's keys, by name. *)
Record Request := mkRequest {
  Body : option User;
  XForwardedProto : string;
  Cookies : gmap string (gmap string value);
}.

(** What was written to the [http.ResponseWriter]: the status code
    ([None] while no header was written) and the cookies set. *)
Record Response := mkResponse {
  Status : option Z;
  SetCookie : list Cookie;
}.

Definition emptyResponse : Response := mkResponse None [].

(** [w.WriteHeader(status)]: the first status written stays. *)
Definition WriteHeader (status : Z) (w : Response) : Response :=
  match Status w with
  | Some _ => w
  | None => mkResponse (Some status) (SetCookie w)
  end.

(** Modelled from the spec: [encoder.StatusResponse] is defined in the
    package's encoder, which is not modelled; with a nil payload it writes
    the status code (section 6: 204 on success, 400 on malformed body, 401 on
    bad credentials). *)
Definition StatusResponse (w : Response) (status : Z) : Response :=
  WriteHeader status w.

(** [http.Error(w, msg, code)] writes the code (and a plain-text body). *)
Definition Error (w : Response) (code : Z) : Response := WriteHeader code w.

(** [authService]: [Login] returns the user and an error; the handler
    reads the error only. *)
Class authService := {
  Login : string → string → option error;
}.

(** [type authHandler struct]: the base URL of the configuration and the
    options of the shared cookie store, which [login] overwrites. *)
Record authHandler := mkAuthHandler {
  BaseURL : string;
  cookieStore : Options;
}.

(** [cookieStore.Get(r, name)]: the session of the request's cookie of that
    name, or a new empty session; either way with a copy of the store's
    current options.  The error is dropped by the callers. *)
Definition storeGet (store : Options) (r : Request) (name : string) : Session :=
  mkSession name (default ∅ (Cookies r !! name)) store.

(** [session.Values[k] = v] *)
Definition setValue (k : string) (v : value) (s : Session) : Session :=
  mkSession (SessionName s) (<[k := v]> (Values s)) (SessionOptions s).

(** [session.Save(r, w)]: sets the session's cookie on the response. *)
Definition Save (s : Session) (w : Response) : Response :=
  mkResponse (Status w)
    (SetCookie w ++ [mkCookie (SessionName s) (Values s) (SessionOptions s)]).

Section AuthHandler.
Context `{!authService}.

(** [func (h authHandler) login(w http.ResponseWriter, r *http.Request)] *)
Definition login (h : authHandler) (r : Request) : Response * authHandler :=
  let w := emptyResponse in
  match Body r with
  | None => (StatusResponse w StatusBadRequest, h)
  | Some data =>
      let opts := cookieStore h in
      let opts := mkOptions (Path opts) (Secure opts) true (SameSiteMode opts) in
      let opts := mkOptions (Path opts) (Secure opts) (HttpOnly opts) SameSiteLaxMode in
      let opts := mkOptions (BaseURL h) (Secure opts) (HttpOnly opts) (SameSiteMode opts) in
      let fwdProto := XForwardedProto r in
      let opts :=
        if bool_decide (fwdProto = "https")
        then mkOptions (Path opts) true (HttpOnly opts) SameSiteStrictMode
        else opts in
      let h := mkAuthHandler (BaseURL h) opts in
      let session := storeGet (cookieStore h) r "user_session" in
      match Login (Username data) (Password data) with
      | Some _ => (StatusResponse w StatusUnauthorized, h)
      | None =>
          let session := setValue "authenticated" (VBool true) session in
          let w := Save session w in
          (StatusResponse w StatusNoContent, h)
      end
  end.

(** [func (h authHandler) logout(w http.ResponseWriter, r *http.Request)] *)
Definition logout (h : authHandler) (r : Request) : Response * authHandler :=
  let w := emptyResponse in
  let session := storeGet (cookieStore h) r "user_session" in
  let session := setValue "authenticated" (VBool false) session in
  let w := Save session w in
  (StatusResponse w StatusNoContent, h).

(** [auth, ok := session.Values["authenticated"].(bool)] *)
Definition authenticated (s : Session) : bool * bool :=
  match Values s !! "authenticated" with
  | Some (VBool b) => (b, true)
  | _ => (false, false)
  end.

(** [func (h authHandler) test(w http.ResponseWriter, r *http.Request)] *)
Definition test (h : authHandler) (r : Request) : Response * authHandler :=
  let w := emptyResponse in
  let session := storeGet (cookieStore h) r "user_session" in
  let '(auth, ok) := authenticated session in
  if negb ok || negb auth
  then (Error w StatusForbidden, h)
  else (StatusResponse w StatusNoContent, h).

(** The request a client sends next: it carries back every cookie the
    response set. *)
Definition withCookiesOf (w : Response) (r : Request) : Request :=
  mkRequest (Body r) (XForwardedProto r)
    (foldl (λ m c, <[CookieName c := CookieValues c]> m) (Cookies r) (SetCookie w)).

End AuthHandler.

End Http.

(* ===================================================================== *)
(** * Regular expressions (Go's [regexp], the syntax the definitions use) *)
(* ===================================================================== *)

Module Regexp.

Definition isChar (c d : ascii) : bool := Ascii.eqb c d.
Definition code (c : ascii) : N := N_of_ascii c.
Definition between (lo hi : N) (c : ascii) : bool :=
  (lo <=? code c)%N && (code c <=? hi)%N.

(** An element of a bracket expression. *)
Inductive item :=
| One (c : ascii)
| Range (lo hi : ascii)
| Digits          (* [\d] *)
| Spaces          (* [\s]: tab, newline, form feed, carriage return, space *)
| Words.          (* [\w] *)

Definition inItem (c : ascii) (i : item) : bool :=
  match i with
  | One d => isChar c d
  | Range lo hi => between (code lo) (code hi) c
  | Digits => between 48 57 c
  | Spaces => between 9 10 c || between 12 13 c || (code c =? 32)%N
  | Words => between 48 57 c || between 65 90 c || between 97 122 c || (code c =? 95)%N
  end.

(** Abstract syntax; [x+] is parsed to [x x*], a non-capturing group to its
    body, and capturing groups are numbered from 1 by their opening
    parenthesis. *)
Inductive re :=
| Eps
| Lit (c : ascii)
| AnyChar                                  (* [.]: any character but newline *)
| Class (negated : bool) (items : list item)
| Bol
| Eol
| Cat (r1 r2 : re)
| Alt (r1 r2 : re)
| Star (greedy : bool) (r : re)
| Opt (greedy : bool) (r : re)
| Group (i : nat) (r : re).

(** ** Parsing a pattern *)

(** The item a backslash escape stands for inside brackets. *)
Definition escapeItem (c : ascii) : item :=
  if isChar c "d" then Digits
  else if isChar c "s" then Spaces
  else if isChar c "w" then Words
  else if isChar c "n" then One "010"
  else if isChar c "t" then One "009"
  else One c.

(** A backslash escape outside brackets; escaped punctuation is literal. *)
Definition escape (c : ascii) : re :=
  match escapeItem c with
  | One d => Lit d
  | i => Class false [i]
  end.

(** The items of a bracket expression, up to the closing bracket. *)
Fixpoint parseItems (s : string) (acc : list item) : option (list item * string) :=
  match s with
  | EmptyString => None
  | String c s1 =>
      if isChar c "]" then Some (rev acc, s1)
      else if isChar c "\" then
        match s1 with
        | String e s2 => parseItems s2 (escapeItem e :: acc)
        | EmptyString => None
        end
      else
        match s1 with
        | String d (String hi s3) =>
            if isChar d "-" && negb (isChar hi "]")
            then parseItems s3 (Range c hi :: acc)
            else parseItems s1 (One c :: acc)
        | _ => parseItems s1 (One c :: acc)
        end
  end.

Definition parseClass (s : string) : option (re * string) :=
  let '(negated, s) :=
    match s with
    | String c s1 => if isChar c "^" then (true, s1) else (false, s)
    | EmptyString => (false, s)
    end in
  '(items, rest) ← parseItems s [];
  Some (Class negated items, rest).

(** A quantifier after an atom: [*], [+], [?], each lazy when followed by
    another [?]. *)
Definition parseQuant (a : re) (s : string) : re * string :=
  match s with
  | String q s1 =>
      if isChar q "*" || isChar q "+" || isChar q "?" then
        let '(greedy, s2) :=
          match s1 with
          | String l s2 => if isChar l "?" then (false, s2) else (true, s1)
          | EmptyString => (true, s1)
          end in
        (if isChar q "*" then Star greedy a
         else if isChar q "+" then Cat a (Star greedy a)
         else Opt greedy a, s2)
      else (a, s)
  | EmptyString => (a, s)
  end.

(** Recursive descent over alternatives, sequences and atoms.  [n] is the
    number of the next capturing group; [fuel] bounds the nesting and is
    taken from the length of the pattern. *)
Fixpoint parseAlt (fuel : nat) (s : string) (n : nat) : option (re * string * nat) :=
  match fuel with
  | O => None
  | S fuel =>
      '(r1, s1, n1) ← parseSeq fuel s n;
      match s1 with
      | String c s2 =>
          if isChar c "|" then
            '(r2, s3, n3) ← parseAlt fuel s2 n1;
            Some (Alt r1 r2, s3, n3)
          else Some (r1, s1, n1)
      | EmptyString => Some (r1, s1, n1)
      end
  end
with parseSeq (fuel : nat) (s : string) (n : nat) : option (re * string * nat) :=
  match fuel with
  | O => None
  | S fuel =>
      match s with
      | EmptyString => Some (Eps, s, n)
      | String c _ =>
          if isChar c "|" || isChar c ")" then Some (Eps, s, n)
          else
            '(a, s1, n1) ← parseAtom fuel s n;
            let '(q, s2) := parseQuant a s1 in
            '(r, s3, n3) ← parseSeq fuel s2 n1;
            Some (match r with Eps => q | _ => Cat q r end, s3, n3)
      end
  end
with parseAtom (fuel : nat) (s : string) (n : nat) : option (re * string * nat) :=
  match fuel with
  | O => None
  | S fuel =>
      match s with
      | EmptyString => None
      | String c s1 =>
          if isChar c "(" then
            match s1 with
            | String "?" (String ":" s3) =>
                '(r, s4, n4) ← parseAlt fuel s3 n;
                match s4 with
                | String d s5 => if isChar d ")" then Some (r, s5, n4) else None
                | EmptyString => None
                end
            | _ =>
                '(r, s4, n4) ← parseAlt fuel s1 (S n);
                match s4 with
                | String d s5 => if isChar d ")" then Some (Group n r, s5, n4) else None
                | EmptyString => None
                end
            end
          else if isChar c "[" then
            '(r, s2) ← parseClass s1;
            Some (r, s2, n)
          else if isChar c "\" then
            match s1 with
            | String e s2 => Some (escape e, s2, n)
            | EmptyString => None
            end
          else if isChar c "." then Some (AnyChar, s1, n)
          else if isChar c "^" then Some (Bol, s1, n)
          else if isChar c "$" then Some (Eol, s1, n)
          else if isChar c "*" || isChar c "+" || isChar c "?" then None
          else Some (Lit c, s1, n)
      end
  end.

(** [regexp.Compile]: the syntax tree and the number of capturing groups;
    [None] for a pattern that does not parse. *)
Definition Compile (pattern : string) : option (re * nat) :=
  '(r, rest, n) ← parseAlt (S (String.length pattern) * 3) pattern 1%nat;
  match rest with
  | EmptyString => Some (r, Nat.pred n)
  | _ => None
  end.

(** ** Matching *)

Definition orElse {A} (x : option A) (y : unit → option A) : option A :=
  match x with
  | Some a => Some a
  | None => y tt
  end.

Section Matcher.
Variable input : string.

(** The text matched so far by each group. *)
Definition captures := gmap nat string.

(** A continuation gets the position reached, the rest of the input and
    the captures. *)
Definition cont := nat → string → captures → option captures.

(** Backtracking matcher with Go's preference order: the first
    alternative before the second, a greedy quantifier longest first and a
    lazy one shortest first.  An iteration of a star that consumes nothing
    is cut.  The matcher reads the input byte by byte, as Go does on ASCII
    text, where every rune is one byte. *)
Fixpoint run (r : re) (pos : nat) (s : string) (c : captures) (k : cont) {struct r}
  : option captures :=
  match r with
  | Eps => k pos s c
  | Lit a =>
      match s with
      | String b s' => if isChar a b then k (S pos) s' c else None
      | EmptyString => None
      end
  | AnyChar =>
      match s with
      | String b s' => if isChar b "010" then None else k (S pos) s' c
      | EmptyString => None
      end
  | Class negated items =>
      match s with
      | String b s' =>
          if xorb negated (existsb (inItem b) items) then k (S pos) s' c else None
      | EmptyString => None
      end
  | Bol => if (pos =? 0)%nat then k pos s c else None
  | Eol => match s with EmptyString => k pos s c | _ => None end
  | Cat r1 r2 => run r1 pos s c (λ pos' s' c', run r2 pos' s' c' k)
  | Alt r1 r2 => orElse (run r1 pos s c k) (λ _, run r2 pos s c k)
  | Opt greedy r1 =>
      if greedy
      then orElse (run r1 pos s c k) (λ _, k pos s c)
      else orElse (k pos s c) (λ _, run r1 pos s c k)
  | Star greedy r1 =>
      (fix loop (fuel pos : nat) (s : string) (c : captures) {struct fuel}
         : option captures :=
         match fuel with
         | O => k pos s c
         | S fuel' =>
             let again (_ : unit) :=
               run r1 pos s c (λ pos' s' c',
                 if (pos <? pos')%nat then loop fuel' pos' s' c' else None) in
             if greedy
             then orElse (again tt) (λ _, k pos s c)
             else orElse (k pos s c) again
         end) (String.length s) pos s c
  | Group i r1 =>
      run r1 pos s c (λ pos' s' c',
        k pos' s' (<[i := substring pos (pos' - pos) input]> c'))
  end.

(** The leftmost match: try every start offset in turn. *)
Fixpoint search (r : re) (pos : nat) (s : string) : option captures :=
  orElse (run r pos s ∅ (λ pos' _ c,
            Some (<[0%nat := substring pos (pos' - pos) input]> c)))
         (λ _, match s with
               | EmptyString => None
               | String _ s' => search r (S pos) s'
               end).

End Matcher.

(** [re.FindStringSubmatch(s)]: the whole match and the text of every
    group, empty for a group that took no part; [None] when there is no
    match ([nil] in Go). *)
Definition FindStringSubmatch (compiled : re * nat) (s : string) : option (list string) :=
  c ← search s compiled.1 0%nat s;
  Some ((λ i, default "" (c !! i)) <$> seq 0 (S compiled.2)).

End Regexp.

(* ===================================================================== *)
(** * Announce parsing and the Redacted definition *)
(* ===================================================================== *)

Module Announce.

(** The release a parsed announcement yields (spec, section 3). *)
Record Release := mkRelease {
  Indexer : string;
  TorrentName : string;
  Category : string;
  Year : string;
  Tags : string;
  TorrentURL : string;
  Vars : gmap string string;
}.

Inductive outcome :=
| NotApplicable                 (* the pattern does not match the line *)
| InvalidRelease                (* matched, but the URL is empty or has no scheme *)
| Parsed (r : Release).

(** Modelled from the spec: the announce processor (package [announce]).
    Section 4.3, step 2: variables are bound positionally to the
    capture groups. *)
Definition bindVars (names groups : list string) : gmap string string :=
  list_to_map (zip names groups).

(** Modelled from the spec: section 4.3, step 2: the dictionary is the
    union of the captured variables and the user settings; on collision
    the settings lose. *)
Definition bindings (captured settings : gmap string string) : gmap string string :=
  captured ∪ settings.

Fixpoint dropBlanks (s : string) : string :=
  match s with
  | EmptyString => EmptyString
  | String c s' =>
      if Regexp.isChar c " " then dropBlanks s' else String c (dropBlanks s')
  end.

(** The variable a [{{ .name }}] token names. *)
Definition tokenName (inside : string) : string :=
  match dropBlanks inside with
  | String "." name => name
  | name => name
  end.

(** Modelled from the spec: section 4.3, step 5 and section 9 ("a
    purpose-built substituter for [{{ .name }}] tokens"): text outside
    tokens is copied, a token is replaced by the value of its variable, and
    a missing variable by the empty string.  [token] holds the text read
    since an opening [{{]. *)
Fixpoint render (dict : gmap string string) (template : string) (token : option string)
  : string :=
  match template with
  | EmptyString => EmptyString
  | String c rest =>
      match token with
      | None =>
          match rest with
          | String d rest' =>
              if Regexp.isChar c "{" && Regexp.isChar d "{"
              then render dict rest' (Some EmptyString)
              else String c (render dict rest None)
          | EmptyString => String c EmptyString
          end
      | Some inside =>
          match rest with
          | String d rest' =>
              if Regexp.isChar c "}" && Regexp.isChar d "}"
              then default "" (dict !! tokenName inside) +:+ render dict rest' None
              else render dict rest (Some (inside +:+ String c EmptyString))
          | EmptyString => EmptyString
          end
      end
  end.

Definition isLetter (c : ascii) : bool :=
  Regexp.between 65 90 c || Regexp.between 97 122 c.

Fixpoint schemeRest (s : string) : bool :=
  match s with
  | EmptyString => false
  | String c s' =>
      if Regexp.isChar c ":" then true
      else if isLetter c || Regexp.between 48 57 c
              || Regexp.isChar c "+" || Regexp.isChar c "-" || Regexp.isChar c "."
      then schemeRest s'
      else false
  end.

(** Modelled from the spec: section 4.3, step 5 ("lacks a scheme"): a URL
    has a scheme when it starts with a letter, followed by letters,
    digits, [+], [-] or [.], up to a colon. *)
Definition hasScheme (url : string) : bool :=
  match url with
  | String c s' => isLetter c && schemeRest s'
  | EmptyString => false
  end.

(** Modelled from the spec: section 4.3, steps 1, 2, 5 and 6 for one line
    rule of a definition of type [single] (the definitions modelled here
    carry no mappings, step 4). *)
Definition parseWith (def : IndexerDefinition) (rule : ParseLine)
    (settings : gmap string string) (rawLine : string) : outcome :=
  match Regexp.Compile (pattern rule) ≫= (λ re, Regexp.FindStringSubmatch re rawLine) with
  | None => NotApplicable
  | Some groups =>
      let captured := bindVars (vars rule) (tail groups) in
      let dict := bindings captured settings in
      let url := render dict (torrenturl def) None in
      if bool_decide (url = "") || negb (hasScheme url) then InvalidRelease
      else
        let var name := default "" (captured !! name) in
        Parsed (mkRelease (identifier def) (var "torrentName") (var "category")
                  (var "year") (var "tags") url dict)
  end.

(** Modelled from the spec: the rules of a definition are tried in order;
    a line no rule matches is not applicable. *)
Fixpoint parseRules (def : IndexerDefinition) (rules : list ParseLine)
    (settings : gmap string string) (rawLine : string) : outcome :=
  match rules with
  | [] => NotApplicable
  | rule :: rules' =>
      match parseWith def rule settings rawLine with
      | NotApplicable => parseRules def rules' settings rawLine
      | result => result
      end
  end.

Definition parse (def : IndexerDefinition) (settings : gmap string string)
    (rawLine : string) : outcome :=
  parseRules def (parse_lines def) settings rawLine.

(** [internal/indexer/definitions/red.yaml], [parse.lines[0]]: the
    pattern and the names of its groups. *)
Definition redLine : ParseLine := {|
  pattern := "(.*) (?:\[(.*)\] \[(.*)\] - (.*))? -\s+https?:.*[&\?]id=(\d+) \/ (https?\:\/\/.*)\s* -\s*(.*)";
  vars := ["torrentName"; "year"; "category"; "releaseTags"; "torrentId"; "baseUrl"; "tags"];
|}.

(** [internal/indexer/definitions/red.yaml]: identifier, IRC server, the
    line rules and [match.torrenturl]. *)
Definition red : IndexerDefinition := {|
  identifier := "redacted";
  irc_server := "irc.scratch-network.net";
  parse_lines := [redLine];
  torrenturl := "{{ .baseUrl }}&authkey={{ .authkey }}&torrent_pass={{ .torrent_pass }}";
|}.

End Announce.

(* ===================================================================== *)
(** * Sample collaborators and configurations *)
(* ===================================================================== *)

(** Small instances of the interfaces above, on which the statements
    below are exercised. *)
Module Sample.
Import Irc.

(** A handler that keeps its network snapshot, whether its client is
    connected, and the indexer definitions bound to it. *)
Record handler := mkHandler {
  network : IrcNetwork.t;
  connected : bool;
  indexers : list IndexerDefinition;
}.

Definition handlerExec (c : Handler.call) (h : handler) : handler :=
  match c with
  | Handler.UpdateNetwork n | Handler.SetNetwork n => mkHandler n (connected h) (indexers h)
  | Handler.Stop => mkHandler (network h) false (indexers h)
  | Handler.InitIndexers defs => mkHandler (network h) (connected h) defs
  | _ => h
  end.

#[export] Instance handlerOps : HandlerOps handler := {|
  NewHandler n defs := mkHandler n false defs;
  Connected := connected;
  GetNetwork := network;
  exec := handlerExec;
|}.

(** A repository that holds the channels per network id and refuses every
    write while it is [down]; an update of a network with a negative id
    fails too. *)
Record store := mkStore {
  down : bool;
  activeNetworks : list IrcNetwork.t;
  channels : gmap Z (list IrcChannel.t);
}.

#[export] Instance ircRepo : IrcRepo store := {|
  FindActiveNetworks r := ((activeNetworks r, None), r);
  ListChannels id r := ((channels r !! id, None), r);
  StoreNetworkChannels id cs r :=
    if down r then (Some "database is down", r)
    else (None, mkStore (down r) (activeNetworks r) (<[id := cs]> (channels r)));
  RepoUpdateNetwork n r :=
    if down r then (Some "database is down", r)
    else if (IrcNetwork.ID n <? 0)%Z then (Some "no such network", r)
    else (None, r);
|}.

#[export] Instance indexerService : IndexerService := {|
  GetIndexersByIRCNetwork server :=
    filter (λ d, irc_server d = server) [Announce.red];
|}.

Definition channel (name : string) : IrcChannel.t :=
  IrcChannel.mk 0 true name "" false.

(** The Redacted network as configured, with the given channels. *)
Definition net (channels : list IrcChannel.t) : IrcNetwork.t :=
  IrcNetwork.mk 1 "Scratch-Network" true "irc.scratch-network.net" 6697 true ""
    "Drone enter #red-announce USERNAME IRCKey" (NickServ.mk "user-autodl" "secret")
    (Some channels).

Definition withPort (port : Z) (n : IrcNetwork.t) : IrcNetwork.t :=
  IrcNetwork.mk (IrcNetwork.ID n) (IrcNetwork.Name n) (IrcNetwork.Enabled n)
    (IrcNetwork.Server n) port (IrcNetwork.TLS n) (IrcNetwork.Pass n)
    (IrcNetwork.InviteCommand n) (IrcNetwork.NickServ n) (IrcNetwork.Channels n).

Definition withPass (pass : string) (n : IrcNetwork.t) : IrcNetwork.t :=
  IrcNetwork.mk (IrcNetwork.ID n) (IrcNetwork.Name n) (IrcNetwork.Enabled n)
    (IrcNetwork.Server n) (IrcNetwork.Port n) (IrcNetwork.TLS n) pass
    (IrcNetwork.InviteCommand n) (IrcNetwork.NickServ n) (IrcNetwork.Channels n).

Definition withNickServPassword (password : string) (n : IrcNetwork.t) : IrcNetwork.t :=
  IrcNetwork.mk (IrcNetwork.ID n) (IrcNetwork.Name n) (IrcNetwork.Enabled n)
    (IrcNetwork.Server n) (IrcNetwork.Port n) (IrcNetwork.TLS n) (IrcNetwork.Pass n)
    (IrcNetwork.InviteCommand n)
    (NickServ.mk (NickServ.Account (IrcNetwork.NickServ n)) password)
    (IrcNetwork.Channels n).

Definition withEnabled (enabled : bool) (n : IrcNetwork.t) : IrcNetwork.t :=
  IrcNetwork.mk (IrcNetwork.ID n) (IrcNetwork.Name n) enabled
    (IrcNetwork.Server n) (IrcNetwork.Port n) (IrcNetwork.TLS n) (IrcNetwork.Pass n)
    (IrcNetwork.InviteCommand n) (IrcNetwork.NickServ n) (IrcNetwork.Channels n).

Definition key : handlerKey := keyOf (net []).

(** A supervisor with one connected handler whose snapshot is [n], over a
    repository that is up or [down]. *)
Definition running (isDown : bool) (n : IrcNetwork.t) : world (H:=handler) (R:=store) :=
  mkWorld
    (mkService (mkStore isDown [n] ∅) ∅ {[ keyOf n := mkHandler n true [] ]} 0 false)
    [].

(** A supervisor without handlers. *)
Definition idle : world (H:=handler) (R:=store) :=
  mkWorld (mkService (mkStore false [] ∅) ∅ ∅ 0 false) [].

(** An auth service that knows one user. *)
#[export] Instance auth : Http.authService := {|
  Http.Login username password :=
    if bool_decide (username = "admin") && bool_decide (password = "hunter2")
    then None else Some "invalid credentials";
|}.

Definition authHandler : Http.authHandler :=
  Http.mkAuthHandler "/" (Http.mkOptions "" false false Http.SameSiteDefaultMode).

Definition loginRequest (username password : string) : Http.Request :=
  Http.mkRequest (Some (Http.mkUser username password)) "" ∅.

Definition plainRequest : Http.Request := Http.mkRequest None "" ∅.

(** The announcement of section 8, scenario 1, and the user's settings. *)
Definition announcement : string :=
  "Artist - Album [2008] [Single] - FLAC / Lossless / Log / 100% / Cue / CD - https://redacted.ch/torrents.php?id=123 / https://redacted.ch/torrents.php?action=download&id=123 - hip.hop,rhythm.and.blues,2000s".

Definition settings : gmap string string :=
  {[ "authkey" := "AK"; "torrent_pass" := "TP" ]}.

End Sample.

(* ===================================================================== *)
(** * The rest of the supervisor ([service.go]) *)
(* ===================================================================== *)

Module IrcService.
Import Irc.

(** [time.Time] as seconds; 0 stands for the zero time. *)
Definition Time : Type := Z.

(** [domain.ChannelWithHealth] *)
Module ChannelWithHealth.
Record t := mk {
  ID : Z;
  Enabled : bool;
  Name : string;
  Password : string;
  Detached : bool;
  Monitoring : bool;
  MonitoringSince : Time;
  LastAnnounce : Time;
}.
End ChannelWithHealth.

(** [domain.IrcNetworkWithHealth] *)
Module IrcNetworkWithHealth.
Record t := mk {
  ID : Z;
  Name : string;
  Enabled : bool;
  Server : string;
  Port : Z;
  TLS : bool;
  Pass : string;
  InviteCommand : string;
  NickServ : NickServ.t;
  Connected : bool;
  ConnectedSince : Time;
  Channels : list ChannelWithHealth.t;
}.
End IrcNetworkWithHealth.

(** The handler's [channelHealth] entries. *)
Record channelHealth := mkChannelHealth {
  monitoring : bool;
  monitoringSince : Time;
  lastAnnounce : Time;
}.

(** The handler fields that [GetNetworksWithHealth] reads under the
    handler's lock: [connected], [connectedSince] and the [channelHealth]
    map. *)
Class HandlerHealth (H : Type) := {
  connected : H → bool;
  connectedSince : H → Time;
  healthOf : H → gmap string channelHealth;
}.

(** The other methods of [domain.IrcRepo] that [service.go] calls
    (prefixed with [Repo] where the supervisor has a method of the same
    name).  [RepoGetNetworkByID] returns a network or an error;
    [CheckExistingNetwork] returns a possibly nil network and an error;
    [RepoStoreNetwork] gets the network by pointer and returns it as the
    repository leaves it. *)
Class IrcRepoStore (R : Type) := {
  RepoGetNetworkByID : Z → R → (IrcNetwork.t + error) * R;
  RepoListNetworks : R → (list IrcNetwork.t * option error) * R;
  RepoDeleteNetwork : Z → R → option error * R;
  CheckExistingNetwork : IrcNetwork.t → R → (option IrcNetwork.t * option error) * R;
  RepoStoreNetwork : IrcNetwork.t → R → (option error * IrcNetwork.t) * R;
  RepoStoreChannel : Z → IrcChannel.t → R → option error * R;
}.

(** [strings.ToLower] belongs to Go's standard library and lowers every
    Unicode letter; the supervisor only uses its result as a key of the
    handler's [channelHealth] map, so the function is a parameter. *)
Class Strings := {
  strings_ToLower : string → string;
}.

(** [append(s, elems...)] on slices that may be nil: without elements the
    slice is returned as it is. *)
Definition appendSlice {A} (s elems : option (list A)) : option (list A) :=
  match default [] elems with
  | [] => s
  | l => Some (default [] s ++ l)
  end.

(** The operations [addAndRun] performs for one network. *)
Definition startBlock (n : IrcNetwork.t) : list Event :=
  [Lock; MapStore (keyOf n); Unlock; WGAdd 1; Go (keyOf n) Handler.Run; WGDone].

(** The enabled networks of a list, in order. *)
Definition enabledOnly (networks : list IrcNetwork.t) : list IrcNetwork.t :=
  filter (λ n, IrcNetwork.Enabled n = true) networks.

Section Service.
Context {H R : Type} `{!HandlerOps H} `{!HandlerHealth H}
        `{!IrcRepo R} `{!IrcRepoStore R} `{!IndexerService} `{!Strings}.

(** [func NewService(...) Service]: an empty handlers map; the zero wait
    group and mutex. *)
Definition NewService (r : R) : service (H:=H) (R:=R) :=
  mkService r ∅ ∅ 0 false.

(** [func (s *service) restartNetwork(network domain.IrcNetwork) error] *)
Definition restartNetwork (network : IrcNetwork.t) : M (H:=H) (R:=R) (option error) :=
  s ← getS;
  match handlers s !! keyOf network with
  | Some existingHandler =>
      (if Connected existingHandler
       then go (keyOf network) Handler.Restart
       else mret tt);;
      mret None
  | None => mret None
  end.

(** [func (s *service) GetNetworkByID(id int64)], returning
    [*domain.IrcNetwork] and [error]. *)
Definition GetNetworkByID (id : Z) : M (H:=H) (R:=R) (IrcNetwork.t + error) :=
  res ← liftRepo (RepoGetNetworkByID id);
  match res with
  | inr err => mret (inr err)
  | inl network =>
      '(channels, err) ← liftRepo (ListChannels (IrcNetwork.ID network));
      match err with
      | Some err => mret (inr err)
      | None =>
          mret (inl (IrcNetwork.setChannels
                       (appendSlice (IrcNetwork.Channels network) channels) network))
      end
  end.

(** The loop of [ListNetworks] from the networks still to visit and the
    slice [ret] built so far. *)
Fixpoint listLoop (networks ret : list IrcNetwork.t)
  : M (H:=H) (R:=R) (list IrcNetwork.t + error) :=
  match networks with
  | [] => mret (inl ret)
  | n :: networks' =>
      '(channels, err) ← liftRepo (ListChannels (IrcNetwork.ID n));
      match err with
      | Some err => mret (inr err)
      | None =>
          let n := IrcNetwork.setChannels
                     (appendSlice (IrcNetwork.Channels n) channels) n in
          listLoop networks' (ret ++ [n])
      end
  end.

(** [func (s *service) ListNetworks(ctx context.Context) ([]domain.IrcNetwork, error)] *)
Definition ListNetworks : M (H:=H) (R:=R) (list IrcNetwork.t + error) :=
  '(networks, err) ← liftRepo RepoListNetworks;
  match err with
  | Some err => mret (inr err)
  | None => listLoop networks []
  end.

(** The body of the loop over [channels] in [GetNetworksWithHealth]:
    [handler] is the handler found for the network, if any. *)
Definition channelWithHealth (handler : option H) (channel : IrcChannel.t)
  : ChannelWithHealth.t :=
  let ch := ChannelWithHealth.mk (IrcChannel.ID channel) (IrcChannel.Enabled channel)
              (IrcChannel.Name channel) (IrcChannel.Password channel)
              (IrcChannel.Detached channel) false 0 0 in
  match handler with
  | Some handler =>
      let name := strings_ToLower (IrcChannel.Name channel) in
      match healthOf handler !! name with
      | Some chan1 =>
          ChannelWithHealth.mk (ChannelWithHealth.ID ch) (ChannelWithHealth.Enabled ch)
            (ChannelWithHealth.Name ch) (ChannelWithHealth.Password ch)
            (ChannelWithHealth.Detached ch)
            (monitoring chan1) (monitoringSince chan1) (lastAnnounce chan1)
      | None => ch
      end
  | None => ch
  end.

(** The entry of one network before its channels are added: [Connected]
    and [ConnectedSince] are taken from the handler only while its client
    is connected. *)
Definition networkWithHealth (handler : option H) (n : IrcNetwork.t)
  : IrcNetworkWithHealth.t :=
  let '(isConnected, since) :=
    match handler with
    | Some handler =>
        if Connected handler then (connected handler, connectedSince handler)
        else (false, 0)
    | None => (false, 0)
    end in
  IrcNetworkWithHealth.mk (IrcNetwork.ID n) (IrcNetwork.Name n) (IrcNetwork.Enabled n)
    (IrcNetwork.Server n) (IrcNetwork.Port n) (IrcNetwork.TLS n) (IrcNetwork.Pass n)
    (IrcNetwork.InviteCommand n) (IrcNetwork.NickServ n) isConnected since [].

Definition withHealthChannels (cs : list ChannelWithHealth.t)
    (netw : IrcNetworkWithHealth.t) : IrcNetworkWithHealth.t :=
  IrcNetworkWithHealth.mk (IrcNetworkWithHealth.ID netw) (IrcNetworkWithHealth.Name netw)
    (IrcNetworkWithHealth.Enabled netw) (IrcNetworkWithHealth.Server netw)
    (IrcNetworkWithHealth.Port netw) (IrcNetworkWithHealth.TLS netw)
    (IrcNetworkWithHealth.Pass netw) (IrcNetworkWithHealth.InviteCommand netw)
    (IrcNetworkWithHealth.NickServ netw) (IrcNetworkWithHealth.Connected netw)
    (IrcNetworkWithHealth.ConnectedSince netw) cs.

(** The loop of [GetNetworksWithHealth]. *)
Fixpoint healthLoop (networks : list IrcNetwork.t) (ret : list IrcNetworkWithHealth.t)
  : M (H:=H) (R:=R) (list IrcNetworkWithHealth.t + error) :=
  match networks with
  | [] => mret (inl ret)
  | n :: networks' =>
      s ← getS;
      let handler := handlers s !! keyOf n in
      let netw := networkWithHealth handler n in
      '(channels, err) ← liftRepo (ListChannels (IrcNetwork.ID n));
      match err with
      | Some err => mret (inr err)
      | None =>
          let netw :=
            withHealthChannels
              (IrcNetworkWithHealth.Channels netw
               ++ (channelWithHealth handler <$> default [] channels)) netw in
          healthLoop networks' (ret ++ [netw])
      end
  end.

(** [func (s *service) GetNetworksWithHealth(ctx context.Context) ([]domain.IrcNetworkWithHealth, error)] *)
Definition GetNetworksWithHealth : M (H:=H) (R:=R) (list IrcNetworkWithHealth.t + error) :=
  '(networks, err) ← liftRepo RepoListNetworks;
  match err with
  | Some err => mret (inr err)
  | None => healthLoop networks []
  end.

(** [func (s *service) DeleteNetwork(ctx context.Context, id int64) error] *)
Definition DeleteNetwork (id : Z) : M (H:=H) (R:=R) (option error) :=
  res ← GetNetworkByID id;
  match res with
  | inr err => mret (Some err)
  | inl network =>
      err ← StopAndRemoveNetwork (keyOf network);
      match err with
      | Some err => mret (Some err)
      | None =>
          err ← liftRepo (RepoDeleteNetwork id);
          match err with
          | Some err => mret (Some err)
          | None => mret None
          end
      end
  end.

(** [for _, channel := range channels { if err := s.repo.StoreChannel(id, &channel); err != nil { return err } }] *)
Fixpoint storeChannels (id : Z) (channels : list IrcChannel.t) : M (H:=H) (R:=R) (option error) :=
  match channels with
  | [] => mret None
  | channel :: channels' =>
      err ← liftRepo (RepoStoreChannel id channel);
      match err with
      | Some err => mret (Some err)
      | None => storeChannels id channels'
      end
  end.

(** [func (s *service) StoreNetwork(ctx context.Context, network *domain.IrcNetwork) error] *)
Definition StoreNetwork (network : IrcNetwork.t) : M (H:=H) (R:=R) (option error) :=
  '(existingNetwork, err) ← liftRepo (CheckExistingNetwork network);
  match err with
  | Some err => mret (Some err)
  | None =>
      match existingNetwork with
      | None =>
          '(err, network) ← liftRepo (RepoStoreNetwork network);
          match err with
          | Some err => mret (Some err)
          | None =>
              match IrcNetwork.Channels network with
              | Some channels => storeChannels (IrcNetwork.ID network) channels
              | None => mret None
              end
          end
      | Some existingNetwork =>
          '(existingChannels, _) ← liftRepo (ListChannels (IrcNetwork.ID existingNetwork));
          let existingNetwork := IrcNetwork.setChannels existingChannels existingNetwork in
          err ← match IrcNetwork.Channels network with
                | Some channels => storeChannels (IrcNetwork.ID existingNetwork) channels
                | None => mret None
                end;
          match err with
          | Some err => mret (Some err)
          | None =>
              let existingNetwork :=
                match IrcNetwork.Channels network with
                | Some _ =>
                    IrcNetwork.setChannels
                      (appendSlice (IrcNetwork.Channels existingNetwork)
                                   (IrcNetwork.Channels network)) existingNetwork
                | None => existingNetwork
                end in
              if IrcNetwork.Enabled existingNetwork then
                err ← checkIfNetworkRestartNeeded existingNetwork;
                match err with
                | Some _ =>
                    mret (Some ("could not restart network: "
                                +:+ IrcNetwork.Name existingNetwork))
                | None => mret None
                end
              else mret None
          end
      end
  end.

(** [func (s *service) StoreChannel(networkID int64, channel *domain.IrcChannel) error] *)
Definition StoreChannel (networkID : Z) (channel : IrcChannel.t) : M (H:=H) (R:=R) (option error) :=
  err ← liftRepo (RepoStoreChannel networkID channel);
  match err with
  | Some err => mret (Some err)
  | None => mret None
  end.

(** ** Vocabulary of the statements about these methods *)

(** [w'] differs from [w] in the repository at most. *)
Definition sameSupervisor (w w' : world (H:=H) (R:=R)) : Prop :=
  handlers (svc w') = handlers (svc w)
  ∧ trace w' = trace w
  ∧ indexerMap (svc w') = indexerMap (svc w)
  ∧ stopWG (svc w') = stopWG (svc w)
  ∧ lock (svc w') = lock (svc w).

(** The repository's [ListChannels] is a query: it leaves the repository
    as it found it. *)
Definition listChannelsReads : Prop :=
  ∀ (id : Z) (r : R), (ListChannels id r).2 = r.

(** In the repository [r] the channels of [n] are listed without error,
    and [m] is [n] with the listed channels appended to its own. *)
Definition withListedChannels (r : R) (n m : IrcNetwork.t) : Prop :=
  (ListChannels (IrcNetwork.ID n) r).1.2 = None
  ∧ m = IrcNetwork.setChannels
          (appendSlice (IrcNetwork.Channels n) (ListChannels (IrcNetwork.ID n) r).1.1) n.

(** The entry [GetNetworksWithHealth] builds for [n] when the handlers
    are [hs], from a list of channels: the one [ListChannels] gives in the
    repository [r] when listing only reads. *)
Definition healthEntry (r : R) (hs : gmap handlerKey H) (n : IrcNetwork.t)
    (netw : IrcNetworkWithHealth.t) : Prop :=
  ∃ channels,
    netw = withHealthChannels (channelWithHealth (hs !! keyOf n) <$> channels)
             (networkWithHealth (hs !! keyOf n) n)
    ∧ (listChannelsReads →
       channels = default [] (ListChannels (IrcNetwork.ID n) r).1.1).

End Service.

End IrcService.

(* ===================================================================== *)
(** * More sample collaborators *)
(* ===================================================================== *)

Module SampleMore.
Import Irc IrcService.

(** A supervisor whose only handler has lost its connection. *)
Definition stalled (n : IrcNetwork.t) : world (H:=Sample.handler) (R:=Sample.store) :=
  mkWorld
    (mkService (Sample.mkStore false [n] ∅) ∅
       {[ keyOf n := Sample.mkHandler n false [] ]} 0 false)
    [].

(** The Redacted network under another NickServ account. *)
Definition withAccount (account : string) (n : IrcNetwork.t) : IrcNetwork.t :=
  IrcNetwork.mk (IrcNetwork.ID n) (IrcNetwork.Name n) (IrcNetwork.Enabled n)
    (IrcNetwork.Server n) (IrcNetwork.Port n) (IrcNetwork.TLS n) (IrcNetwork.Pass n)
    (IrcNetwork.InviteCommand n)
    (NickServ.mk account (NickServ.Password (IrcNetwork.NickServ n)))
    (IrcNetwork.Channels n).

Definition withID (id : Z) (n : IrcNetwork.t) : IrcNetwork.t :=
  IrcNetwork.mk id (IrcNetwork.Name n) (IrcNetwork.Enabled n)
    (IrcNetwork.Server n) (IrcNetwork.Port n) (IrcNetwork.TLS n) (IrcNetwork.Pass n)
    (IrcNetwork.InviteCommand n) (IrcNetwork.NickServ n) (IrcNetwork.Channels n).

(** The sample repository answers the other methods from its list of
    networks and its channel table; every method fails while it is
    [down]. *)
Definition findByID (id : Z) (r : Sample.store) : option IrcNetwork.t :=
  head (filter (λ n, IrcNetwork.ID n = id) (Sample.activeNetworks r)).

Definition findExisting (n : IrcNetwork.t) (r : Sample.store) : option IrcNetwork.t :=
  head (filter (λ m, keyOf m = keyOf n) (Sample.activeNetworks r)).

#[export] Instance ircRepoStore : IrcRepoStore Sample.store := {|
  RepoGetNetworkByID id r :=
    match findByID id r with
    | Some n => (inl n, r)
    | None => (inr "no such network", r)
    end;
  RepoListNetworks r :=
    if Sample.down r then (([], Some "database is down"), r)
    else ((Sample.activeNetworks r, None), r);
  RepoDeleteNetwork id r :=
    if Sample.down r then (Some "database is down", r)
    else (None, Sample.mkStore (Sample.down r)
                  (filter (λ n, IrcNetwork.ID n ≠ id) (Sample.activeNetworks r))
                  (delete id (Sample.channels r)));
  CheckExistingNetwork n r :=
    if Sample.down r then ((None, Some "database is down"), r)
    else ((findExisting n r, None), r);
  RepoStoreNetwork n r :=
    let n := withID (Z.of_nat (length (Sample.activeNetworks r)) + 1) n in
    ((None, n), Sample.mkStore (Sample.down r) (Sample.activeNetworks r ++ [n])
                  (Sample.channels r));
  RepoStoreChannel id c r :=
    if bool_decide (IrcChannel.Name c = "") then (Some "empty channel name", r)
    else (None, Sample.mkStore (Sample.down r) (Sample.activeNetworks r)
                  (<[id := default [] (Sample.channels r !! id) ++ [c]]> (Sample.channels r)));
|}.

(** The sample handler reports one monitored channel, [#red-announce],
    and a connection since time 100. *)
#[export] Instance handlerHealth : HandlerHealth Sample.handler := {|
  connected := Sample.connected;
  connectedSince h := if Sample.connected h then 100 else 0;
  healthOf h := {[ "#red-announce" := mkChannelHealth true 100 250 ]};
|}.

(** On ASCII text [strings.ToLower] lowers the letters A to Z and leaves
    every other byte; the sample channel names are ASCII. *)
#[export] Instance strings : Strings := {|
  strings_ToLower := ToLower;
|}.

(** A repository with the given networks and channel table. *)
Definition stocked (isDown : bool) (ns : list IrcNetwork.t)
    (cs : gmap Z (list IrcChannel.t)) (hs : gmap handlerKey Sample.handler)
  : world (H:=Sample.handler) (R:=Sample.store) :=
  mkWorld (mkService (Sample.mkStore isDown ns cs) ∅ hs 0 false) [].

(** Two stored networks, the first with a channel of its own in the
    channel table. *)
Definition twoNetworks : world (H:=Sample.handler) (R:=Sample.store) :=
  let n1 := Sample.net [] in
  let n2 := withID 2 (withAccount "second" (Sample.net [])) in
  stocked false [n1; n2]
    {[ 1 := [Sample.channel "#Red-Announce"] ]}
    {[ keyOf n1 := Sample.mkHandler n1 true [] ]}.

End SampleMore.

(* ===================================================================== *)
(** * The release table of the web client ([ReleaseTable.tsx]) *)
(* ===================================================================== *)

Module Web.

(** The JavaScript values the table state holds.  The reducer stores
    payloads without computing on them. *)
Inductive value :=
| Null
| Num (n : Z)
| Filters (filters : list (string * string)).   (* react-table's [{id, value}] *)

(** The state of [React.useReducer(TableReducer, initialState)]. *)
Record state := mkState {
  queryPageIndex : value;
  queryPageSize : value;
  totalCount : value;
  queryFilters : value;
}.

(** [const initialState] *)
Definition initialState : state := mkState (Num 0) (Num 10) Null (Filters []).

Definition PAGE_CHANGED : string := "PAGE_CHANGED".
Definition PAGE_SIZE_CHANGED : string := "PAGE_SIZE_CHANGED".
Definition TOTAL_COUNT_CHANGED : string := "TOTAL_COUNT_CHANGED".
Definition FILTER_CHANGED : string := "FILTER_CHANGED".

(** A dispatched action, [{ type, payload }]. *)
Record action := mkAction {
  type : string;
  payload : value;
}.

(** [const TableReducer = (state, { type, payload }) => ...]; [None] is the
    thrown [Error] of the default case. *)
Definition TableReducer (s : state) (a : action) : option state :=
  if bool_decide (type a = PAGE_CHANGED) then
    Some (mkState (payload a) (queryPageSize s) (totalCount s) (queryFilters s))
  else if bool_decide (type a = PAGE_SIZE_CHANGED) then
    Some (mkState (queryPageIndex s) (payload a) (totalCount s) (queryFilters s))
  else if bool_decide (type a = TOTAL_COUNT_CHANGED) then
    Some (mkState (queryPageIndex s) (queryPageSize s) (payload a) (queryFilters s))
  else if bool_decide (type a = FILTER_CHANGED) then
    Some (mkState (queryPageIndex s) (queryPageSize s) (totalCount s) (payload a))
  else None.

(** The state after a sequence of dispatches; a throw ends it. *)
Definition dispatchAll (s : state) (actions : list action) : option state :=
  foldl (λ acc a, acc ≫= λ s, TableReducer s a) (Some s) actions.

(** The payload of the last action of the type [ty], or [d] without one. *)
Definition lastPayload (ty : string) (d : value) (actions : list action) : value :=
  foldl (λ acc a, if bool_decide (type a = ty) then payload a else acc) d actions.

(** An action of one of the four types the reducer handles. *)
Definition handled (a : action) : Prop :=
  type a = PAGE_CHANGED ∨ type a = PAGE_SIZE_CHANGED
  ∨ type a = TOTAL_COUNT_CHANGED ∨ type a = FILTER_CHANGED.

End Web.

(* ===================================================================== *)
(** * The bundled indexer definitions and their test lines *)
(* ===================================================================== *)

Module Definitions.

(** [red.yaml], [parse.lines[0].test]. *)
Definition redTests : list string := [
  "Artist - Albumname [2008] [Single] - FLAC / Lossless / Log / 100% / Cue / CD - https://redacted.ch/torrents.php?id=0000000 / https://redacted.ch/torrents.php?action=download&id=0000000 - hip.hop,rhythm.and.blues,2000s";
  "A really long name here - Concertos 5 and 6, Suite No 2 [1991] [Album] - FLAC / Lossless / Log / 100% / Cue / CD - https://redacted.ch/torrents.php?id=0000000 / https://redacted.ch/torrents.php?action=download&id=0000000 - classical"
].

(** The DigitalCore definition, [parse.lines[0]]. *)
Definition digitalcoreLine : ParseLine := {|
  pattern := "^NEW.TORRENT.in.(.*?).::.(.*?).::.(.*)\/([0-9a-zA-Z]+)";
  vars := ["category"; "torrentName"; "baseUrl"; "torrentId"];
|}.

(** The DigitalCore definition: identifier, IRC server, line rules and
    [match.torrenturl]. *)
Definition digitalcore : IndexerDefinition := {|
  identifier := "digitalcore";
  irc_server := "irc.digitalcore.club";
  parse_lines := [digitalcoreLine];
  torrenturl := "{{ .baseUrl }}/{{ .torrentId }}/{{ .passkey }}";
|}.

(** The DigitalCore definition, [parse.lines[0].test]. *)
Definition digitalcoreTests : list string := [
  "NEW TORRENT in Movies/XviD :: This.is.my.Movie.2019.BRRip.XviD.AC3-iND :: https://digitalcore.club/api/v1/torrents/download/00000"
].

(** The groups a line rule captures on a line, without the whole
    match. *)
Definition captured (rule : ParseLine) (line : string) : option (list string) :=
  tail <$> (Regexp.Compile (pattern rule) ≫= (λ re, Regexp.FindStringSubmatch re line)).

End Definitions.

(* ===================================================================== *)
(** * The IRC supervisor: statements *)
(* ===================================================================== *)

Module SupervisorSpec.
Import Irc.

(** ** The channel loops compute the two differences *)

(** Membership goals over the sets and lists of channel names. *)
Ltac chan_sets :=
  intros;
  rewrite ?elem_of_cons, ?elem_of_nil, ?elem_of_union, ?elem_of_singleton,
          ?elem_of_empty; tauto.

Lemma expectedChannels_elem (cs : list IrcChannel.t) (x : string) :
  x ∈ expectedChannels cs ↔ x ∈ names cs.
Proof.
  unfold expectedChannels.
  assert (G : ∀ acc : gset string,
             x ∈ foldl (λ m channel, {[IrcChannel.Name channel]} ∪ m) acc cs
             ↔ x ∈ names cs ∨ x ∈ acc).
  { induction cs as [|c cs IH]; intros acc; simpl.
    - unfold names; simpl. chan_sets.
    - rewrite IH. unfold names; simpl. chan_sets. }
  rewrite G. chan_sets.
Qed.

Lemma leaveLoop_spec (expected : gset string) (hs : list IrcChannel.t) :
  (leaveLoop expected hs).2 = filter (λ name, name ∉ expected) (names hs)
  ∧ ∀ x, x ∈ (leaveLoop expected hs).1 ↔ x ∈ names hs.
Proof.
  unfold leaveLoop.
  set (body := λ '(handlerChannels, channelsToLeave) handlerChan, _).
  assert (G : ∀ (accS : gset string) (accL : list string),
             (foldl body (accS, accL) hs).2
               = accL ++ filter (λ name, name ∉ expected) (names hs)
             ∧ ∀ x, x ∈ (foldl body (accS, accL) hs).1 ↔ x ∈ names hs ∨ x ∈ accS).
  { induction hs as [|c hs IH]; intros accS accL.
    - simpl. rewrite app_nil_r. split; [done|]. unfold names; simpl. chan_sets.
    - simpl. destruct (decide (IrcChannel.Name c ∈ expected)) as [Hin|Hout].
      + destruct (IH ({[IrcChannel.Name c]} ∪ accS) accL) as [-> Hs]. split.
        * unfold names; simpl. rewrite filter_cons_False; [done|]. by intros ?.
        * intros x. rewrite Hs. unfold names; simpl. chan_sets.
      + destruct (IH ({[IrcChannel.Name c]} ∪ accS) (accL ++ [IrcChannel.Name c]))
          as [-> Hs]. split.
        * unfold names; simpl. rewrite filter_cons_True by done.
          by rewrite <- app_assoc.
        * intros x. rewrite Hs. unfold names; simpl. chan_sets. }
  destruct (G ∅ []) as [-> Hs]. split; [done|].
  intros x. rewrite Hs. chan_sets.
Qed.

Lemma joinLoop_spec (handlerChannels : gset string) (cs : list IrcChannel.t) :
  joinLoop handlerChannels cs
  = filter (λ c, IrcChannel.Name c ∉ handlerChannels) cs.
Proof.
  unfold joinLoop.
  assert (G : ∀ acc,
             foldl (λ channelsToJoin channel,
                      if decide (IrcChannel.Name channel ∈ handlerChannels)
                      then channelsToJoin else channelsToJoin ++ [channel]) acc cs
             = acc ++ filter (λ c, IrcChannel.Name c ∉ handlerChannels) cs).
  { induction cs as [|c cs IH]; intros acc; simpl.
    - by rewrite app_nil_r.
    - rewrite IH. destruct (decide (IrcChannel.Name c ∈ handlerChannels)).
      + rewrite filter_cons_False; [done|]. by intros ?.
      + rewrite filter_cons_True by done. by rewrite <- app_assoc. }
  by rewrite G.
Qed.

(** The three loops together compute the two differences. *)
Lemma channel_delta (handlerChans networkChans : list IrcChannel.t) :
  (leaveLoop (expectedChannels networkChans) handlerChans).2
    = toLeave handlerChans networkChans
  ∧ joinLoop (leaveLoop (expectedChannels networkChans) handlerChans).1 networkChans
    = toJoin handlerChans networkChans.
Proof.
  destruct (leaveLoop_spec (expectedChannels networkChans) handlerChans) as [HL HS].
  split.
  - rewrite HL. unfold toLeave. apply list_filter_iff. intros x.
    by rewrite expectedChannels_elem.
  - rewrite joinLoop_spec. unfold toJoin. apply list_filter_iff. intros c.
    by rewrite HS.
Qed.

(** ** Sequences of calls on one handler *)

Section WithCollaborators.
Context {H R : Type} `{!HandlerOps H} `{!IrcRepo R} `{!IndexerService}.
Implicit Types (w : world (H:=H) (R:=R)) (n : IrcNetwork.t) (k : handlerKey).

Lemma after_nil k w : after k [] w = w.
Proof.
  destruct w as [s t]. unfold after; simpl. rewrite app_nil_r. f_equal.
  destruct s; unfold withHandlers; simpl. f_equal. apply alter_id. done.
Qed.

Lemma after_cons k c cs w : after k cs (after k [c] w) = after k (c :: cs) w.
Proof.
  unfold after; simpl. rewrite <- app_assoc. f_equal.
  unfold withHandlers; simpl. f_equal.
  rewrite alter_alter_eq. by apply alter_ext.
Qed.

Lemma call_after k c w : call k c w = (tt, after k [c] w).
Proof. reflexivity. Qed.

Lemma forM_call k cs w : forM_ cs (call k) w = (tt, after k cs w).
Proof.
  revert w. induction cs as [|c cs IH]; intros w; simpl.
  - by rewrite after_nil.
  - unfold mbind, M_bind. rewrite call_after, IH, after_cons. done.
Qed.

Lemma forM_fmap {A B} (f : A → B) (body : B → M (H:=H) (R:=R) unit) (l : list A) :
  forM_ l (λ x, body (f x)) = forM_ (f <$> l) body.
Proof. induction l as [|x l IH]; simpl; [done|]. by rewrite IH. Qed.

Lemma after_app k cs1 cs2 w : after k cs2 (after k cs1 w) = after k (cs1 ++ cs2) w.
Proof.
  revert w. induction cs1 as [|c cs1 IH]; intros w; simpl.
  - by rewrite after_nil.
  - rewrite <- (after_cons k c cs1), IH, after_cons. done.
Qed.



(** ** Reconciling a live handler *)

Lemma restartNeeded_false handler network :
  restartNeeded handler network = false ↔ sameTransport handler network.
Proof.
  unfold restartNeeded, sameTransport.
  repeat case_bool_decide; simpl; intuition congruence.
Qed.

Lemma restartNeeded_true handler network :
  restartNeeded handler network = true ↔ transportDiffers handler network.
Proof.
  unfold restartNeeded, transportDiffers.
  repeat case_bool_decide; simpl; intuition congruence.
Qed.

Lemma reconcile_live n w h :
  handlers (svc w) !! keyOf n = Some h →
  Connected h = true →
  restartNeeded (GetNetwork h) n = false →
  checkIfNetworkRestartNeeded n w
  = (None, after (keyOf n)
             (identityCalls (GetNetwork h) n ++ partCalls (GetNetwork h) n
              ++ joinCalls (GetNetwork h) n ++ refreshCalls n) w).
Proof.
  intros Hfound Hconn Hrestart.
  unfold checkIfNetworkRestartNeeded, mbind, M_bind, getS; simpl.
  rewrite Hfound, Hconn, Hrestart.
  destruct (channel_delta (IrcNetwork.chans (GetNetwork h)) (IrcNetwork.chans n))
    as [HL HJ].
  destruct (leaveLoop _ _) as [handlerChannels channelsToLeave]; simpl in HL, HJ.
  rewrite HJ, HL.
  assert (Hid : ∀ w0,
    (if negb (bool_decide (NickServ.Account (IrcNetwork.NickServ (GetNetwork h))
                           = NickServ.Account (IrcNetwork.NickServ n)))
     then call (keyOf n) (Handler.HandleNickChange (NickServ.Account (IrcNetwork.NickServ n)))
     else if negb (bool_decide (NickServ.Password (IrcNetwork.NickServ (GetNetwork h))
                                = NickServ.Password (IrcNetwork.NickServ n)))
     then call (keyOf n) (Handler.HandleNickServIdentify
                            (NickServ.Account (IrcNetwork.NickServ n))
                            (NickServ.Password (IrcNetwork.NickServ n)))
     else mret tt) w0 = (tt, after (keyOf n) (identityCalls (GetNetwork h) n) w0)).
  { intros w0. unfold identityCalls.
    repeat case_bool_decide; repeat case_decide; try done; simpl.
    by rewrite after_nil. }
  rewrite Hid.
  rewrite (forM_fmap Handler.HandlePartChannel (call (keyOf n))), forM_call.
  rewrite (forM_fmap (λ c, Handler.HandleJoinChannel (IrcChannel.Name c)
                             (IrcChannel.Password c)) (call (keyOf n))), forM_call.
  unfold refreshCalls, partCalls, joinCalls.
  rewrite <- !after_app, <- (after_cons _ _ [_]). reflexivity.
Qed.


Lemma filter_none {A} (P : A → Prop) `{∀ x, Decision (P x)} (l : list A) :
  (∀ x, x ∈ l → ¬ P x) → filter P l = [].
Proof.
  induction l as [|x l IH]; intros Hl; [done|].
  rewrite filter_cons_False by (apply Hl; left).
  apply IH. intros y Hy. apply Hl. by right.
Qed.

Lemma toLeave_self (cs : list IrcChannel.t) : toLeave cs cs = [].
Proof.
  unfold toLeave. apply filter_none.
  intros x Hx Hn. by apply Hn.
Qed.

Lemma toJoin_self (cs : list IrcChannel.t) : toJoin cs cs = [].
Proof.
  unfold toJoin. apply filter_none.
  intros c Hc Hn. apply Hn. unfold names. by apply list_elem_of_fmap_2.
Qed.

Lemma channel_calls_quiet handler n :
  Forall (λ c, isNickChange c = false ∧ isReconnect c = false)
         (partCalls handler n ++ joinCalls handler n ++ refreshCalls n).
Proof.
  rewrite !Forall_app. unfold partCalls, joinCalls, refreshCalls.
  rewrite !Forall_fmap. repeat split.
  - by apply Forall_true.
  - by apply Forall_true.
  - by repeat constructor.
Qed.

(** C1 (amended): for a connected handler whose transport fields are
    unchanged, whatever became of the NickServ account and password, the
    reconcile parts every handler channel name that is not, as written,
    among the network's names and joins (with its password) every network
    channel whose name is not, as written, among the handler's: names are
    compared case-sensitively.  The parts and joins come after the nick
    change or the re-identification, if any, and before the snapshot swap
    and the indexer refresh.  No call reconnects, no part, join or refresh
    changes the nick, and with the NickServ data unchanged (only the
    channels differ) there is no nick change or identify at all. *)
Theorem reconcile_channel_delta n w h :
  handlers (svc w) !! keyOf n = Some h →
  Connected h = true →
  sameTransport (GetNetwork h) n →
  checkIfNetworkRestartNeeded n w
  = (None, after (keyOf n)
             (identityCalls (GetNetwork h) n ++ partCalls (GetNetwork h) n
              ++ joinCalls (GetNetwork h) n ++ refreshCalls n) w)
  ∧ Forall (λ c, isReconnect c = false)
           (identityCalls (GetNetwork h) n ++ partCalls (GetNetwork h) n
            ++ joinCalls (GetNetwork h) n ++ refreshCalls n)
  ∧ Forall (λ c, isNickChange c = false)
           (partCalls (GetNetwork h) n ++ joinCalls (GetNetwork h) n ++ refreshCalls n)
  ∧ (IrcNetwork.NickServ (GetNetwork h) = IrcNetwork.NickServ n →
     identityCalls (GetNetwork h) n = []).
Proof.
  intros Hfound Hconn Htransport.
  split; [apply reconcile_live; try done; by apply restartNeeded_false|].
  split; [|split].
  - apply Forall_app. split.
    + unfold identityCalls. repeat case_decide; by repeat constructor.
    + eapply Forall_impl; [apply channel_calls_quiet|]. by intros c [_ ?].
  - eapply Forall_impl; [apply channel_calls_quiet|]. by intros c [? _].
  - intros Hnick. unfold identityCalls. rewrite Hnick.
    by rewrite !decide_True by done.
Qed.

(** C2 (amended): for a connected handler, a difference in server, port,
    TLS flag or invite command makes the reconcile hand the updated
    configuration to the handler and start [Restart] in a goroutine, and
    nothing else: no nick change, no identify, no join or part. *)
Theorem transport_change_restarts n w h :
  handlers (svc w) !! keyOf n = Some h →
  Connected h = true →
  transportDiffers (GetNetwork h) n →
  checkIfNetworkRestartNeeded n w
  = (None, mkWorld (withHandlers (alter (exec (Handler.UpdateNetwork n)) (keyOf n)) (svc w))
                   (trace w ++ [Call (keyOf n) (Handler.UpdateNetwork n);
                                Go (keyOf n) Handler.Restart])).
Proof.
  intros Hfound Hconn Hdiff. apply restartNeeded_true in Hdiff.
  unfold checkIfNetworkRestartNeeded, mbind, M_bind, getS; simpl.
  rewrite Hfound, Hconn, Hdiff. simpl.
  by rewrite <- app_assoc.
Qed.

(** C3: for a connected handler whose transport fields and NickServ
    account are unchanged and whose NickServ password differs, the
    reconcile first re-identifies with the new password on the live
    session, then applies the channel delta and the refresh; no call
    disconnects or reconnects.  When the channels are unchanged too, the
    re-identification is the only traffic. *)
Theorem password_change_reidentifies n w h :
  handlers (svc w) !! keyOf n = Some h →
  Connected h = true →
  sameTransport (GetNetwork h) n →
  NickServ.Account (IrcNetwork.NickServ (GetNetwork h))
    = NickServ.Account (IrcNetwork.NickServ n) →
  NickServ.Password (IrcNetwork.NickServ (GetNetwork h))
    ≠ NickServ.Password (IrcNetwork.NickServ n) →
  checkIfNetworkRestartNeeded n w
  = (None, after (keyOf n)
             (Handler.HandleNickServIdentify
                (NickServ.Account (IrcNetwork.NickServ n))
                (NickServ.Password (IrcNetwork.NickServ n))
              :: partCalls (GetNetwork h) n ++ joinCalls (GetNetwork h) n
                 ++ refreshCalls n) w)
  ∧ Forall (λ c, isReconnect c = false)
           (Handler.HandleNickServIdentify
              (NickServ.Account (IrcNetwork.NickServ n))
              (NickServ.Password (IrcNetwork.NickServ n))
            :: partCalls (GetNetwork h) n ++ joinCalls (GetNetwork h) n
               ++ refreshCalls n)
  ∧ (IrcNetwork.chans (GetNetwork h) = IrcNetwork.chans n →
     checkIfNetworkRestartNeeded n w
     = (None, after (keyOf n)
                (Handler.HandleNickServIdentify
                   (NickServ.Account (IrcNetwork.NickServ n))
                   (NickServ.Password (IrcNetwork.NickServ n))
                 :: refreshCalls n) w)).
Proof.
  intros Hfound Hconn Htransport Hacc Hpw.
  assert (Hrun : checkIfNetworkRestartNeeded n w
    = (None, after (keyOf n)
               (Handler.HandleNickServIdentify
                  (NickServ.Account (IrcNetwork.NickServ n))
                  (NickServ.Password (IrcNetwork.NickServ n))
                :: partCalls (GetNetwork h) n ++ joinCalls (GetNetwork h) n
                   ++ refreshCalls n) w)).
  { rewrite (reconcile_live n w h Hfound Hconn) by (by apply restartNeeded_false).
    unfold identityCalls.
    rewrite decide_True by done. by rewrite decide_False by done. }
  split; [done|]. split.
  - constructor; [done|].
    eapply Forall_impl; [apply channel_calls_quiet|]. by intros c [_ ?].
  - intros Hchans. rewrite Hrun. unfold partCalls, joinCalls.
    by rewrite Hchans, toLeave_self, toJoin_self.
Qed.

(** ** Stopping handlers *)

Lemma stop_found (k : handlerKey) w h :
  handlers (svc w) !! k = Some h →
  StopNetwork k w = (None, after k [Handler.Stop] w)
  ∧ StopNetworkIfRunning k w = (None, after k [Handler.Stop] w).
Proof.
  intros Hfound.
  unfold StopNetwork, StopNetworkIfRunning, mbind, M_bind, getS; simpl.
  by rewrite Hfound.
Qed.

Lemma stop_absent (k : handlerKey) w :
  handlers (svc w) !! k = None →
  StopNetwork k w = (None, w) ∧ StopNetworkIfRunning k w = (None, w).
Proof.
  intros Habsent.
  unfold StopNetwork, StopNetworkIfRunning, mbind, M_bind, getS; simpl.
  by rewrite Habsent.
Qed.

Lemma StopAndRemoveNetwork_found (k : handlerKey) w h :
  handlers (svc w) !! k = Some h →
  StopAndRemoveNetwork k w
  = (None, mkWorld (withHandlers (delete k) (svc w))
                   (trace w ++ [Call k Handler.Stop; MapDelete k])).
Proof.
  intros Hfound.
  unfold StopAndRemoveNetwork, mbind, M_bind, getS; simpl.
  rewrite Hfound; simpl. rewrite <- app_assoc. unfold withHandlers; simpl.
  by rewrite delete_alter_eq.
Qed.

Lemma StopAndRemoveNetwork_absent (k : handlerKey) w :
  handlers (svc w) !! k = None → StopAndRemoveNetwork k w = (None, w).
Proof.
  intros Habsent.
  unfold StopAndRemoveNetwork, mbind, M_bind, getS; simpl.
  by rewrite Habsent.
Qed.

Lemma StopAndRemoveNetwork_removes (k : handlerKey) w :
  handlers (svc (StopAndRemoveNetwork k w).2) !! k = None.
Proof.
  destruct (handlers (svc w) !! k) as [h|] eqn:Hk.
  - rewrite (StopAndRemoveNetwork_found k w h Hk); simpl. apply lookup_delete_eq.
  - by rewrite (StopAndRemoveNetwork_absent k w Hk).
Qed.

Lemma after_onlyEntry (k : handlerKey) cs w : onlyEntry k w (after k cs w).
Proof.
  unfold onlyEntry; simpl. repeat split; try done.
  intros k' Hk'. by rewrite lookup_alter_ne.
Qed.

Lemma onlyEntry_refl (k : handlerKey) w : onlyEntry k w w.
Proof. by unfold onlyEntry. Qed.

(** C9: a second [StopAndRemoveNetwork] on the same key returns nil and
    changes nothing, so twice is the same as once; on a key that is not in
    the map the call does nothing at all. *)
Theorem StopAndRemoveNetwork_idempotent (k : handlerKey) w :
  (StopAndRemoveNetwork k w).1 = None
  ∧ StopAndRemoveNetwork k (StopAndRemoveNetwork k w).2
    = (None, (StopAndRemoveNetwork k w).2)
  ∧ (handlers (svc w) !! k = None → StopAndRemoveNetwork k w = (None, w)).
Proof.
  split; [|split].
  - destruct (handlers (svc w) !! k) as [h|] eqn:Hk.
    + by rewrite (StopAndRemoveNetwork_found k w h Hk).
    + by rewrite (StopAndRemoveNetwork_absent k w Hk).
  - apply StopAndRemoveNetwork_absent, StopAndRemoveNetwork_removes.
  - apply StopAndRemoveNetwork_absent.
Qed.

(** C10: [StopNetwork], [StopNetworkIfRunning] and [StopAndRemoveNetwork]
    return nil for every key; they leave the repository, the indexer map,
    the wait group, the lock and every other handler entry as they were;
    and for a key without handler they change nothing. *)
Theorem stop_functions_return_nil (k : handlerKey) w :
  ((StopNetwork k w).1 = None
   ∧ onlyEntry k w (StopNetwork k w).2
   ∧ (handlers (svc w) !! k = None → StopNetwork k w = (None, w)))
  ∧ ((StopNetworkIfRunning k w).1 = None
     ∧ onlyEntry k w (StopNetworkIfRunning k w).2
     ∧ (handlers (svc w) !! k = None → StopNetworkIfRunning k w = (None, w)))
  ∧ ((StopAndRemoveNetwork k w).1 = None
     ∧ onlyEntry k w (StopAndRemoveNetwork k w).2
     ∧ (handlers (svc w) !! k = None → StopAndRemoveNetwork k w = (None, w))).
Proof.
  destruct (handlers (svc w) !! k) as [h|] eqn:Hk.
  - destruct (stop_found k w h Hk) as [-> ->].
    rewrite (StopAndRemoveNetwork_found k w h Hk); simpl.
    repeat split; try done;
      intros k' Hk'; simpl;
      first [by rewrite lookup_alter_ne | by rewrite lookup_delete_ne].
  - destruct (stop_absent k w Hk) as [-> ->].
    rewrite (StopAndRemoveNetwork_absent k w Hk); simpl.
    repeat split; done.
Qed.

(** ** [UpdateNetwork] *)

(** C4: when persisting the network fails, [UpdateNetwork] returns the
    repository's error and has performed no operation on any handler: the
    handlers, the trace, the wait group and the lock are as before. *)
Theorem UpdateNetwork_persistence_failure n w (e : error) :
  persistFails n (repo (svc w)) e →
  (UpdateNetwork n w).1 = Some e
  ∧ handlers (svc (UpdateNetwork n w).2) = handlers (svc w)
  ∧ trace (UpdateNetwork n w).2 = trace w
  ∧ stopWG (svc (UpdateNetwork n w).2) = stopWG (svc w)
  ∧ lock (svc (UpdateNetwork n w).2) = lock (svc w).
Proof.
  unfold persistFails, UpdateNetwork, mbind, M_bind, liftRepo.
  destruct (IrcNetwork.Channels n) as [channels|]; simpl.
  - destruct (StoreNetworkChannels _ channels _) as [[e1|] r1] eqn:Hstore; simpl.
    + intros [[= ->]|[[=] _]]. done.
    + intros [[=]|[_ Hupd]].
      destruct (RepoUpdateNetwork n r1) as [[e2|] r2]; simpl in *; [|done].
      by injection Hupd as ->.
  - intros Hupd.
    destruct (RepoUpdateNetwork n _) as [[e2|] r2]; simpl in *; [|done].
    by injection Hupd as ->.
Qed.

Lemma bind_run {A B} (m : M (H:=H) (R:=R) A) (f : A → M B) w :
  (m ≫= f) w = f (m w).1 (m w).2.
Proof. unfold mbind, M_bind. by destruct (m w). Qed.

Lemma liftRepo_frame {A} (f : R → A * R) w :
  handlers (svc (liftRepo f w).2) = handlers (svc w)
  ∧ trace (liftRepo f w).2 = trace w.
Proof. unfold liftRepo. by destruct (f _). Qed.

Lemma stop_and_remove_tail (k : handlerKey) (msg : error) w w2 :
  handlers (svc w2) = handlers (svc w) →
  trace w2 = trace w →
  ∀ res, res = (err ← StopAndRemoveNetwork k;
                match err with
                | Some _ => mret (Some msg)
                | None => mret None
                end) w2 →
  handlers (svc res.2) !! k = None
  ∧ (∀ h, handlers (svc w) !! k = Some h →
          trace res.2 = trace w ++ [Call k Handler.Stop; MapDelete k])
  ∧ (handlers (svc w) !! k = None → trace res.2 = trace w).
Proof.
  intros Hh Ht res ->. unfold mbind, M_bind.
  destruct (handlers (svc w2) !! k) as [h|] eqn:Hk.
  - rewrite (StopAndRemoveNetwork_found _ _ h Hk); simpl.
    rewrite lookup_delete_eq, Ht. rewrite Hh in Hk.
    split; [done|]. split; [done|]. intros Habs. congruence.
  - rewrite (StopAndRemoveNetwork_absent _ _ Hk); simpl.
    rewrite Ht. rewrite Hh in Hk.
    split; [by rewrite Hh|]. split; [|done]. intros h Hfound. congruence.
Qed.

Lemma disabled_update_tail n (msg : error) w w1 :
  handlers (svc w1) = handlers (svc w) →
  trace w1 = trace w →
  ∀ res, res = (err ← liftRepo (RepoUpdateNetwork n);
                match err with
                | Some e => mret (Some e)
                | None =>
                    err ← StopAndRemoveNetwork (keyOf n);
                    match err with
                    | Some _ => mret (Some msg)
                    | None => mret None
                    end
                end) w1 →
  res.1 = None →
  handlers (svc res.2) !! keyOf n = None
  ∧ (∀ h, handlers (svc w) !! keyOf n = Some h →
          trace res.2 = trace w ++ [Call (keyOf n) Handler.Stop; MapDelete (keyOf n)])
  ∧ (handlers (svc w) !! keyOf n = None → trace res.2 = trace w).
Proof.
  intros Hh1 Ht1 res ->. rewrite bind_run.
  destruct (liftRepo_frame (RepoUpdateNetwork n) w1) as [Hh2 Ht2].
  destruct (liftRepo (RepoUpdateNetwork n) w1) as [[e2|] w2]; simpl in *; [done|].
  intros _. eapply stop_and_remove_tail; [| |done]; congruence.
Qed.

(** C5: when [UpdateNetwork] returns nil for a disabled network, the map
    has no handler under the network's key; a handler that was there got
    [Stop] and was then deleted, and nothing else was done to handlers. *)
Theorem UpdateNetwork_disabled_removes n w :
  IrcNetwork.Enabled n = false →
  (UpdateNetwork n w).1 = None →
  handlers (svc (UpdateNetwork n w).2) !! keyOf n = None
  ∧ (∀ h, handlers (svc w) !! keyOf n = Some h →
          trace (UpdateNetwork n w).2
          = trace w ++ [Call (keyOf n) Handler.Stop; MapDelete (keyOf n)])
  ∧ (handlers (svc w) !! keyOf n = None → trace (UpdateNetwork n w).2 = trace w).
Proof.
  intros Hdisabled.
  unfold UpdateNetwork. rewrite Hdisabled. rewrite bind_run.
  destruct (IrcNetwork.Channels n) as [channels|].
  - destruct (liftRepo_frame (StoreNetworkChannels (IrcNetwork.ID n) channels) w)
      as [Hh1 Ht1].
    destruct (liftRepo _ w) as [[e1|] w1]; simpl in *; [done|].
    by eapply disabled_update_tail.
  - simpl. by eapply disabled_update_tail.
Qed.

(** ** [StopHandlers] and the wait group *)

Lemma forM_call_each {A} (key : A → handlerKey) (c : Handler.call) (l : list A) w :
  forM_ l (λ x, call (key x) c) w
  = (tt, mkWorld (withHandlers (λ m, foldl (λ m x, alter (exec c) (key x) m) m l) (svc w))
                 (trace w ++ ((λ x, Call (key x) c) <$> l))).
Proof.
  revert w. induction l as [|x l IH]; intros w.
  - simpl. rewrite app_nil_r. by destruct w as [[] ?].
  - simpl. rewrite bind_run, IH. simpl. by rewrite <- app_assoc.
Qed.

Lemma lookup_alter_each {A} (f : A → A) (l : list (handlerKey * A))
    (m : gmap handlerKey A) (k : handlerKey) :
  NoDup l.*1 →
  foldl (λ m kh, alter f kh.1 m) m l !! k
  = if decide (k ∈ l.*1) then f <$> m !! k else m !! k.
Proof.
  revert m. induction l as [|[k0 h0] l IH]; intros m Hnd.
  - rewrite decide_False; [done|]. apply not_elem_of_nil.
  - rewrite fmap_cons in *. apply NoDup_cons in Hnd as [Hk0 Hnd].
    change (foldl (λ m kh, alter f kh.1 m) (alter f k0 m) l !! k
            = if decide (k ∈ k0 :: l.*1) then f <$> m !! k else m !! k).
    rewrite IH by done.
    destruct (decide (k = k0)) as [->|Hne].
    + rewrite decide_False by done. rewrite lookup_alter_eq.
      rewrite decide_True; [done|]. by left.
    + rewrite lookup_alter_ne by done.
      destruct (decide (k ∈ l.*1)) as [Hin|Hout].
      * rewrite decide_True; [done|]. by right.
      * rewrite decide_False; [done|]. rewrite elem_of_cons. tauto.
Qed.

Lemma alter_every_entry {A} (f : A → A) (m : gmap handlerKey A) :
  foldl (λ m kh, alter f kh.1 m) m (map_to_list m) = f <$> m.
Proof.
  apply map_eq. intros k.
  rewrite lookup_alter_each by apply NoDup_fst_map_to_list.
  rewrite lookup_fmap. case_decide as Hk; [done|].
  destruct (m !! k) as [h|] eqn:Hm; [|done].
  exfalso. apply Hk. apply list_elem_of_fmap. exists (k, h).
  split; [done|]. by apply elem_of_map_to_list.
Qed.

(** C8 (amended): [StopHandlers] calls [Stop] on every handler of the map,
    once each and one after the other on the calling goroutine, in the
    order the map is iterated: the stops are not issued in parallel, no
    goroutine is started. *)
Theorem StopHandlers_stops_each_in_turn w :
  StopHandlers w
  = (tt, mkWorld (withHandlers (fmap (exec Handler.Stop)) (svc w))
                 (trace w ++ ((λ kh, Call kh.1 Handler.Stop)
                                <$> map_to_list (handlers (svc w)))))
  ∧ NoDup ((map_to_list (handlers (svc w))).*1)
  ∧ (∀ k, k ∈ (map_to_list (handlers (svc w))).*1 ↔ is_Some (handlers (svc w) !! k))
  ∧ Forall (λ e, isSpawn e = false)
           ((λ kh, Call kh.1 Handler.Stop) <$> map_to_list (handlers (svc w))).
Proof.
  split; [|split; [|split]].
  - unfold StopHandlers. rewrite bind_run. unfold getS; simpl.
    rewrite (forM_call_each fst). unfold withHandlers; simpl.
    by rewrite alter_every_entry.
  - apply NoDup_fst_map_to_list.
  - intros k. rewrite list_elem_of_fmap. split.
    + intros [[k' h] [-> Hin]]. apply elem_of_map_to_list in Hin. by exists h.
    + intros [h Hh]. exists (k, h). split; [done|]. by apply elem_of_map_to_list.
  - rewrite Forall_fmap. by apply Forall_true.
Qed.

(** [StartHandlers] and [startNetwork] call [Add(1)] before and [Done()]
    right after the [go] statement: the counter of the wait group is back
    to its value when [addAndRun] returns, whether or not [Run] has
    ended. *)
Lemma addAndRun_stopWG n w :
  stopWG (svc (addAndRun n w).2) = stopWG (svc w).
Proof.
  unfold addAndRun, mbind, M_bind, liftRepo; simpl.
  destruct (ListChannels _ _) as [[channels err] r]; simpl. lia.
Qed.

End WithCollaborators.

(** ** The statements at sample configurations *)

Import (hints) Sample.

(** Section 8, scenario 3: a handler on [#a,#b], the network updated to
    [#b,#c]: the traffic is [PART #a], [JOIN #c]. *)
Lemma reconcile_channel_delta_scenario :
  let handler := Sample.net [Sample.channel "#a"; Sample.channel "#b"] in
  let n := Sample.net [Sample.channel "#b"; Sample.channel "#c"] in
  let w := Sample.running false handler in
  let calls := identityCalls handler n ++ partCalls handler n ++ joinCalls handler n
               ++ refreshCalls n in
  (handlers (svc w) !! keyOf n = Some (Sample.mkHandler handler true [])
   ∧ sameTransport handler n)
  ∧ (checkIfNetworkRestartNeeded n w = (None, after (keyOf n) calls w)
     ∧ Forall (λ c, isReconnect c = false) calls
     ∧ Forall (λ c, isNickChange c = false)
              (partCalls handler n ++ joinCalls handler n ++ refreshCalls n)
     ∧ (IrcNetwork.NickServ handler = IrcNetwork.NickServ n → identityCalls handler n = []))
  ∧ identityCalls handler n ++ partCalls handler n ++ joinCalls handler n
    = [Handler.HandlePartChannel "#a"; Handler.HandleJoinChannel "#c" ""].
Proof.
  intros handler n w calls.
  assert (Hfound : handlers (svc w) !! keyOf n = Some (Sample.mkHandler handler true []))
    by (vm_compute; reflexivity).
  assert (Htransport : sameTransport handler n) by (repeat split).
  split; [by repeat split|]. split; [|vm_compute; reflexivity].
  exact (reconcile_channel_delta n w (Sample.mkHandler handler true [])
           Hfound eq_refl Htransport).
Defined.

(** The handler is on [#Announce], the network lists [#announce]: with
    names lowercased there is nothing to leave or join, yet the reconcile
    parts [#Announce] and joins [#announce]. *)
Lemma lowercased_delta_counterexample :
  let handler := Sample.net [Sample.channel "#Announce"] in
  let n := Sample.net [Sample.channel "#announce"] in
  toLeaveLowercased (IrcNetwork.chans handler) (IrcNetwork.chans n) = []
  ∧ toJoinLowercased (IrcNetwork.chans handler) (IrcNetwork.chans n) = []
  ∧ trace (checkIfNetworkRestartNeeded n (Sample.running false handler)).2
    = [Call Sample.key (Handler.HandlePartChannel "#Announce");
       Call Sample.key (Handler.HandleJoinChannel "#announce" "");
       Call Sample.key (Handler.SetNetwork n);
       Call Sample.key (Handler.InitIndexers [Announce.red])].
Proof. vm_compute. repeat split. Qed.

(** Section 8, scenario 4: the port changes from 6697 to 7000. *)
Lemma transport_change_restarts_scenario :
  let handler := Sample.net [Sample.channel "#red-announce"] in
  let n := Sample.withPort 7000 handler in
  let w := Sample.running false handler in
  (handlers (svc w) !! keyOf n = Some (Sample.mkHandler handler true [])
   ∧ transportDiffers handler n)
  ∧ checkIfNetworkRestartNeeded n w
    = (None, mkWorld (withHandlers (alter (exec (Handler.UpdateNetwork n)) (keyOf n)) (svc w))
                     (trace w ++ [Call (keyOf n) (Handler.UpdateNetwork n);
                                  Go (keyOf n) Handler.Restart])).
Proof.
  intros handler n w.
  assert (Hfound : handlers (svc w) !! keyOf n = Some (Sample.mkHandler handler true []))
    by (vm_compute; reflexivity).
  assert (Hdiff : transportDiffers handler n) by (right; left; discriminate).
  split; [done|].
  exact (transport_change_restarts n w (Sample.mkHandler handler true [])
           Hfound eq_refl Hdiff).
Defined.

(** Only the server password differs: the handler is not restarted. *)
Lemma server_password_counterexample :
  let handler := Sample.net [Sample.channel "#red-announce"] in
  let n := Sample.withPass "letmein" handler in
  bool_decide (IrcNetwork.Pass handler = IrcNetwork.Pass n) = false
  ∧ trace (checkIfNetworkRestartNeeded n (Sample.running false handler)).2
    = [Call Sample.key (Handler.SetNetwork n);
       Call Sample.key (Handler.InitIndexers [Announce.red])].
Proof. vm_compute. repeat split. Qed.

(** Only the NickServ password differs. *)
Lemma password_change_reidentifies_scenario :
  let handler := Sample.net [Sample.channel "#red-announce"] in
  let n := Sample.withNickServPassword "rotated" handler in
  let w := Sample.running false handler in
  let identify := Handler.HandleNickServIdentify "user-autodl" "rotated" in
  (handlers (svc w) !! keyOf n = Some (Sample.mkHandler handler true [])
   ∧ sameTransport handler n)
  ∧ checkIfNetworkRestartNeeded n w
    = (None, after (keyOf n)
               (identify :: partCalls handler n ++ joinCalls handler n ++ refreshCalls n) w)
  ∧ Forall (λ c, isReconnect c = false)
           (identify :: partCalls handler n ++ joinCalls handler n ++ refreshCalls n)
  ∧ (IrcNetwork.chans handler = IrcNetwork.chans n →
     checkIfNetworkRestartNeeded n w
     = (None, after (keyOf n) (identify :: refreshCalls n) w)).
Proof.
  intros handler n w identify.
  assert (Hfound : handlers (svc w) !! keyOf n = Some (Sample.mkHandler handler true []))
    by (vm_compute; reflexivity).
  assert (Htransport : sameTransport handler n) by (repeat split).
  split; [done|].
  refine (password_change_reidentifies n w (Sample.mkHandler handler true [])
            Hfound eq_refl Htransport eq_refl _).
  discriminate.
Defined.

(** The repository is down: [StoreNetworkChannels] fails. *)
Lemma UpdateNetwork_persistence_failure_scenario :
  let n := Sample.net [Sample.channel "#red-announce"] in
  let w := Sample.running true n in
  persistFails n (repo (svc w)) "database is down"
  ∧ (UpdateNetwork n w).1 = Some "database is down"
  ∧ handlers (svc (UpdateNetwork n w).2) = handlers (svc w)
  ∧ trace (UpdateNetwork n w).2 = trace w
  ∧ stopWG (svc (UpdateNetwork n w).2) = stopWG (svc w)
  ∧ lock (svc (UpdateNetwork n w).2) = lock (svc w).
Proof.
  intros n w.
  assert (Hfails : persistFails n (repo (svc w)) "database is down") by (by left).
  split; [done|].
  exact (UpdateNetwork_persistence_failure n w "database is down" Hfails).
Defined.

(** A running network is disabled. *)
Lemma UpdateNetwork_disabled_removes_scenario :
  let handler := Sample.net [Sample.channel "#red-announce"] in
  let n := Sample.withEnabled false handler in
  let w := Sample.running false handler in
  (IrcNetwork.Enabled n = false ∧ (UpdateNetwork n w).1 = None)
  ∧ handlers (svc (UpdateNetwork n w).2) !! keyOf n = None
  ∧ (∀ h, handlers (svc w) !! keyOf n = Some h →
          trace (UpdateNetwork n w).2
          = trace w ++ [Call (keyOf n) Handler.Stop; MapDelete (keyOf n)])
  ∧ (handlers (svc w) !! keyOf n = None → trace (UpdateNetwork n w).2 = trace w).
Proof.
  intros handler n w.
  assert (Hnil : (UpdateNetwork n w).1 = None) by (vm_compute; reflexivity).
  split; [done|].
  exact (UpdateNetwork_disabled_removes n w eq_refl Hnil).
Defined.

(** One running handler: [StopHandlers] calls [Stop] on it on the calling
    goroutine; the trace has no goroutine and no wait. *)
Lemma StopHandlers_counterexample :
  let w := Sample.running false (Sample.net [Sample.channel "#red-announce"]) in
  trace (StopHandlers w).2 = [Call Sample.key Handler.Stop]
  ∧ existsb isSpawn (trace (StopHandlers w).2) = false
  ∧ existsb isWait (trace (StopHandlers w).2) = false.
Proof. vm_compute. repeat split. Qed.

End SupervisorSpec.

(* ===================================================================== *)
(** * The login handler: statements *)
(* ===================================================================== *)

Module AuthSpec.
Import Http.

Section WithAuthService.
Context `{!authService}.

Lemma login_bad_body h r :
  Body r = None →
  Status (login h r).1 = Some StatusBadRequest ∧ SetCookie (login h r).1 = [].
Proof. intros Hbody. unfold login. by rewrite Hbody. Qed.

Lemma login_rejected h r u e :
  Body r = Some u →
  Login (Username u) (Password u) = Some e →
  Status (login h r).1 = Some StatusUnauthorized ∧ SetCookie (login h r).1 = [].
Proof. intros Hbody Hlogin. unfold login. by rewrite Hbody, Hlogin. Qed.

Lemma login_accepted h r u :
  Body r = Some u →
  Login (Username u) (Password u) = None →
  Status (login h r).1 = Some StatusNoContent
  ∧ ∃ c, SetCookie (login h r).1 = [c]
         ∧ CookieName c = "user_session"
         ∧ HttpOnly (CookieOptions c) = true
         ∧ CookieValues c !! "authenticated" = Some (VBool true).
Proof.
  intros Hbody Hlogin. unfold login. rewrite Hbody, Hlogin. simpl.
  split; [done|]. eexists. split; [done|]. simpl.
  split; [done|]. split; [by case_bool_decide|]. apply lookup_insert_eq.
Qed.

Lemma test_status h r :
  (Cookies r !! "user_session" ≫= (.!! "authenticated") = Some (VBool true)
   ∧ Status (test h r).1 = Some StatusNoContent)
  ∨ (Cookies r !! "user_session" ≫= (.!! "authenticated") ≠ Some (VBool true)
     ∧ Status (test h r).1 = Some StatusForbidden).
Proof.
  unfold test, authenticated, storeGet; simpl.
  destruct (Cookies r !! "user_session") as [values|]; simpl.
  - destruct (values !! "authenticated") as [[[]| |]|]; simpl;
      first [by left | by right].
  - rewrite lookup_empty. by right.
Qed.

(** C7: [POST /login] answers 400 when the body does not decode, 401 and
    no cookie when the auth service rejects the credentials, and 204 with
    an HttpOnly [user_session] cookie marked authenticated when it accepts
    them; [GET /test] answers 204 for a session marked authenticated and
    403 otherwise, in particular without a session cookie; a request that
    carries the cookie of an accepted login gets 204. *)
Theorem auth_flow (h : authHandler) (r : Request) :
  (Body r = None → Status (login h r).1 = Some 400)
  ∧ (∀ u e, Body r = Some u → Login (Username u) (Password u) = Some e →
            Status (login h r).1 = Some 401 ∧ SetCookie (login h r).1 = [])
  ∧ (∀ u, Body r = Some u → Login (Username u) (Password u) = None →
          Status (login h r).1 = Some 204
          ∧ ∃ c, SetCookie (login h r).1 = [c]
                 ∧ CookieName c = "user_session"
                 ∧ HttpOnly (CookieOptions c) = true
                 ∧ CookieValues c !! "authenticated" = Some (VBool true))
  ∧ (Cookies r !! "user_session" ≫= (.!! "authenticated") = Some (VBool true) →
     Status (test h r).1 = Some 204)
  ∧ (Cookies r !! "user_session" ≫= (.!! "authenticated") ≠ Some (VBool true) →
     Status (test h r).1 = Some 403)
  ∧ (Cookies r !! "user_session" = None → Status (test h r).1 = Some 403)
  ∧ (∀ u h' r', Body r = Some u → Login (Username u) (Password u) = None →
                Status (test h' (withCookiesOf (login h r).1 r')).1 = Some 204).
Proof.
  repeat apply conj.
  - intros Hbody. by apply login_bad_body.
  - intros u e. apply login_rejected.
  - intros u. apply login_accepted.
  - intros Hauth. by destruct (test_status h r) as [[_ ?]|[? _]].
  - intros Hauth. by destruct (test_status h r) as [[? _]|[_ ?]].
  - intros Hnone. destruct (test_status h r) as [[Hauth _]|[_ ?]]; [|done].
    by rewrite Hnone in Hauth.
  - intros u h' r' Hbody Hlogin.
    destruct (login_accepted h r u Hbody Hlogin) as (_ & c & Hc & Hname & _ & Hval).
    destruct (test_status h' (withCookiesOf (login h r).1 r')) as [[_ ?]|[Hno _]];
      [done|].
    exfalso. apply Hno. unfold withCookiesOf. rewrite Hc; simpl.
    rewrite Hname, lookup_insert_eq; simpl. done.
Qed.

End WithAuthService.

Import (hints) Sample.

(** Section 8, scenario 5 at the sample service: wrong credentials, right
    credentials, and [GET /test] with and without the cookie. *)
Example auth_flow_scenario :
  let wrong := login Sample.authHandler (Sample.loginRequest "admin" "guess") in
  let right := login Sample.authHandler (Sample.loginRequest "admin" "hunter2") in
  (Status wrong.1 = Some 401 ∧ SetCookie wrong.1 = [])
  ∧ (Status right.1 = Some 204
     ∧ HttpOnly <$> (CookieOptions <$> SetCookie right.1) = [true])
  ∧ Status (test right.2 (withCookiesOf right.1 Sample.plainRequest)).1 = Some 204
  ∧ Status (test right.2 Sample.plainRequest).1 = Some 403.
Proof. vm_compute. repeat split. Qed.

End AuthSpec.

(* ===================================================================== *)
(** * The Redacted definition: statements *)
(* ===================================================================== *)

Module RedactedSpec.
Import Announce.

(** The pattern of the definition parses, with seven capturing groups. *)
Lemma red_pattern_compiles :
  snd <$> Regexp.Compile (pattern redLine) = Some 7%nat.
Proof. vm_compute. reflexivity. Qed.

(** The groups the pattern captures on the line. *)
Lemma red_submatches :
  Regexp.Compile (pattern redLine) ≫= (λ re, Regexp.FindStringSubmatch re Sample.announcement)
  = Some [Sample.announcement;
          "Artist - Album"; "2008"; "Single";
          "FLAC / Lossless / Log / 100% / Cue / CD"; "123";
          "https://redacted.ch/torrents.php?action=download&id=123";
          "hip.hop,rhythm.and.blues,2000s"].
Proof. vm_compute. reflexivity. Qed.

Lemma append_empty_r (s : string) : s +:+ "" = s.
Proof.
  induction s as [|c s IH]; [done|].
  change (String c (s +:+ "") = String c s). by rewrite IH.
Qed.

(** The template of the definition with [baseUrl] and the two secrets. *)
Lemma red_torrenturl (dict : gmap string string) (baseUrl authkey pass : string) :
  dict !! "baseUrl" = Some baseUrl →
  dict !! "authkey" = Some authkey →
  dict !! "torrent_pass" = Some pass →
  render dict (torrenturl red) None
  = baseUrl +:+ "&authkey=" +:+ authkey +:+ "&torrent_pass=" +:+ pass.
Proof.
  intros Hb Ha Hp. cbn.
  repeat match goal with
         | |- context [tokenName ?inside] =>
             let name := eval vm_compute in (tokenName inside) in
             change (tokenName inside) with name
         end.
  rewrite Hb, Ha, Hp. cbn.
  by rewrite append_empty_r.
Qed.

(** C6: the Redacted definition on the announcement of scenario 1 with
    settings [authkey = AK], [torrent_pass = TP] yields the release named
    "Artist - Album" of year 2008 and category Single, with the announced
    tags and the download URL completed by the two secrets. *)
Theorem redacted_single_line :
  parse red Sample.settings Sample.announcement
  = Parsed
      {| Indexer := "redacted";
         TorrentName := "Artist - Album";
         Category := "Single";
         Year := "2008";
         Tags := "hip.hop,rhythm.and.blues,2000s";
         TorrentURL :=
           "https://redacted.ch/torrents.php?action=download&id=123&authkey=AK&torrent_pass=TP";
         Vars :=
           {[ "torrentName" := "Artist - Album";
              "year" := "2008";
              "category" := "Single";
              "releaseTags" := "FLAC / Lossless / Log / 100% / Cue / CD";
              "torrentId" := "123";
              "baseUrl" := "https://redacted.ch/torrents.php?action=download&id=123";
              "tags" := "hip.hop,rhythm.and.blues,2000s";
              "authkey" := "AK";
              "torrent_pass" := "TP" ]} |}.
Proof.
  unfold parse. change (parse_lines red) with [redLine].
  unfold parseRules, parseWith.
  rewrite red_submatches.
  rewrite (red_torrenturl _ "https://redacted.ch/torrents.php?action=download&id=123"
             "AK" "TP") by (vm_compute; reflexivity).
  vm_compute. reflexivity.
Qed.

End RedactedSpec.

(* ===================================================================== *)
(** * The IRC supervisor: further statements *)
(* ===================================================================== *)

Module SupervisorMore.
Import Irc IrcService.
Import SupervisorSpec.

(** ** The channel loops *)

(** The names left after the parts, together with the names joined, are
    exactly the network's names; nothing is both parted and joined, every
    part is a name the handler had and every join a channel of the
    network. *)
Theorem channel_loops_reach_network (hs ns : list IrcChannel.t) :
  (∀ x, x ∈ names hs ∧ x ∉ (leaveLoop (expectedChannels ns) hs).2
        ∨ x ∈ names (joinLoop (leaveLoop (expectedChannels ns) hs).1 ns)
        ↔ x ∈ names ns)
  ∧ (∀ x, x ∈ (leaveLoop (expectedChannels ns) hs).2 →
          x ∈ names hs
          ∧ x ∉ names (joinLoop (leaveLoop (expectedChannels ns) hs).1 ns))
  ∧ (∀ c, c ∈ joinLoop (leaveLoop (expectedChannels ns) hs).1 ns → c ∈ ns).
Proof.
  destruct (channel_delta hs ns) as [-> ->]. unfold toLeave, toJoin.
  assert (Hjoin : ∀ x, x ∈ names (filter (λ c, IrcChannel.Name c ∉ names hs) ns)
                       ↔ x ∈ names ns ∧ x ∉ names hs).
  { intros x. split.
    - intros Hx. apply list_elem_of_fmap in Hx as (c & -> & Hc).
      apply list_elem_of_filter in Hc as [Hout Hc].
      split; [|done]. by apply list_elem_of_fmap_2.
    - intros [Hx Hout]. apply list_elem_of_fmap in Hx as (c & -> & Hc).
      apply list_elem_of_fmap_2. by apply list_elem_of_filter. }
  split; [|split].
  - intros x. rewrite Hjoin, list_elem_of_filter.
    destruct (decide (x ∈ names hs)); destruct (decide (x ∈ names ns)); tauto.
  - intros x Hx. apply list_elem_of_filter in Hx as [Hout Hin].
    split; [done|]. rewrite Hjoin. tauto.
  - intros c Hc. by apply list_elem_of_filter in Hc as [_ ?].
Qed.

Section WithCollaborators.
Context {H R : Type} `{!HandlerOps H} `{!IrcRepo R} `{!IndexerService}.
Implicit Types (w : world (H:=H) (R:=R)) (n : IrcNetwork.t) (k : handlerKey).

(** ** Reconciling *)

(** A reconcile with the configuration the handler already has issues no
    nick change, identify, part or join: it only swaps the snapshot and
    refreshes the indexers. *)
Theorem reconcile_unchanged_is_quiet n w h :
  handlers (svc w) !! keyOf n = Some h →
  Connected h = true →
  sameTransport (GetNetwork h) n →
  IrcNetwork.NickServ (GetNetwork h) = IrcNetwork.NickServ n →
  IrcNetwork.chans (GetNetwork h) = IrcNetwork.chans n →
  checkIfNetworkRestartNeeded n w = (None, after (keyOf n) (refreshCalls n) w).
Proof.
  intros Hfound Hconn Htransport Hnick Hchans.
  rewrite (reconcile_live n w h Hfound Hconn) by (by apply restartNeeded_false).
  unfold identityCalls, partCalls, joinCalls.
  rewrite Hnick, Hchans, toLeave_self, toJoin_self.
  by rewrite !decide_True by done.
Qed.

(** If the handler, after the calls of a reconcile, holds the network as
    its snapshot and is still connected, a second reconcile with the same
    network issues no nick change, identify, part or join. *)
Theorem reconcile_twice_is_quiet n w h :
  handlers (svc w) !! keyOf n = Some h →
  Connected h = true →
  sameTransport (GetNetwork h) n →
  GetNetwork (applyCalls (identityCalls (GetNetwork h) n ++ partCalls (GetNetwork h) n
                          ++ joinCalls (GetNetwork h) n ++ refreshCalls n) h) = n →
  Connected (applyCalls (identityCalls (GetNetwork h) n ++ partCalls (GetNetwork h) n
                         ++ joinCalls (GetNetwork h) n ++ refreshCalls n) h) = true →
  checkIfNetworkRestartNeeded n (checkIfNetworkRestartNeeded n w).2
  = (None, after (keyOf n) (refreshCalls n) (checkIfNetworkRestartNeeded n w).2).
Proof.
  intros Hfound Hconn Htransport Hsnapshot Hstill.
  rewrite (reconcile_live n w h Hfound Hconn) by (by apply restartNeeded_false).
  simpl.
  set (calls := identityCalls (GetNetwork h) n ++ partCalls (GetNetwork h) n
                ++ joinCalls (GetNetwork h) n ++ refreshCalls n) in *.
  assert (Hfound' : handlers (svc (after (keyOf n) calls w)) !! keyOf n
                    = Some (applyCalls calls h)).
  { simpl. by rewrite lookup_alter_eq, Hfound. }
  rewrite (reconcile_live n _ _ Hfound' Hstill).
  - rewrite Hsnapshot. unfold identityCalls, partCalls, joinCalls.
    rewrite toLeave_self, toJoin_self. by rewrite !decide_True by done.
  - apply restartNeeded_false. rewrite Hsnapshot. by repeat split.
Qed.

(** A handler whose client is not connected is left alone: the reconcile
    performs nothing, not even the snapshot swap, and returns nil. *)
Theorem reconcile_skips_disconnected n w h :
  handlers (svc w) !! keyOf n = Some h →
  Connected h = false →
  checkIfNetworkRestartNeeded n w = (None, w).
Proof.
  intros Hfound Hconn.
  unfold checkIfNetworkRestartNeeded, mbind, M_bind, getS; simpl.
  by rewrite Hfound, Hconn.
Qed.

(** When the handler's account differs from the network's, the reconcile
    changes the nick and does not identify in the same pass, whether or
    not the password differs too. *)
Theorem nick_change_precedes_identify n w h :
  handlers (svc w) !! keyOf n = Some h →
  Connected h = true →
  sameTransport (GetNetwork h) n →
  NickServ.Account (IrcNetwork.NickServ (GetNetwork h))
    ≠ NickServ.Account (IrcNetwork.NickServ n) →
  checkIfNetworkRestartNeeded n w
  = (None, after (keyOf n)
             (Handler.HandleNickChange (NickServ.Account (IrcNetwork.NickServ n))
              :: partCalls (GetNetwork h) n ++ joinCalls (GetNetwork h) n
                 ++ refreshCalls n) w)
  ∧ Forall (λ c, ∀ account password,
                   c ≠ Handler.HandleNickServIdentify account password)
           (Handler.HandleNickChange (NickServ.Account (IrcNetwork.NickServ n))
            :: partCalls (GetNetwork h) n ++ joinCalls (GetNetwork h) n
               ++ refreshCalls n).
Proof.
  intros Hfound Hconn Htransport Hacc. split.
  - rewrite (reconcile_live n w h Hfound Hconn) by (by apply restartNeeded_false).
    unfold identityCalls. by rewrite decide_False by done.
  - constructor; [done|]. rewrite !Forall_app.
    unfold partCalls, joinCalls, refreshCalls. rewrite !Forall_fmap.
    repeat split; try (by apply Forall_true). by repeat constructor.
Qed.

(** The world after [addAndRun]: the handler built from the network with
    the repository's channels is stored under the network's key, the lock
    is released, the wait group is back to its counter and [Run] was
    started in a goroutine. *)
Lemma addAndRun_run n w :
  addAndRun n w
  = (tt, mkWorld
           (mkService
              (ListChannels (IrcNetwork.ID n) (repo (svc w))).2
              (indexerMap (svc w))
              (<[keyOf n := NewHandler
                              (IrcNetwork.setChannels
                                 (ListChannels (IrcNetwork.ID n) (repo (svc w))).1.1 n)
                              (GetIndexersByIRCNetwork (IrcNetwork.Server n))]>
                 (handlers (svc w)))
              (stopWG (svc w)) false)
           (trace w ++ [Lock; MapStore (keyOf n); Unlock; WGAdd 1;
                        Go (keyOf n) Handler.Run; WGDone])).
Proof.
  unfold addAndRun, mbind, M_bind, liftRepo; simpl.
  destruct (ListChannels _ _) as [[channels err] r]; simpl.
  unfold wgDone, mbind, M_bind, emit, modS; simpl.
  rewrite <- !app_assoc; simpl. do 2 f_equal.
  unfold withStopWG, withLock, withHandlers, withRepo; simpl. f_equal. lia.
Qed.

(** Without a handler under the network's key the reconcile touches no
    existing handler: it stores a new handler under the key, leaves every
    other entry as it was, and starts [Run] in a goroutine. *)
Theorem reconcile_starts_missing_handler n w :
  handlers (svc w) !! keyOf n = None →
  (checkIfNetworkRestartNeeded n w).1 = None
  ∧ handlers (svc (checkIfNetworkRestartNeeded n w).2)
    = <[keyOf n := NewHandler
                     (IrcNetwork.setChannels
                        (ListChannels (IrcNetwork.ID n) (repo (svc w))).1.1 n)
                     (GetIndexersByIRCNetwork (IrcNetwork.Server n))]>
        (handlers (svc w))
  ∧ trace (checkIfNetworkRestartNeeded n w).2
    = trace w ++ [Lock; MapStore (keyOf n); Unlock; WGAdd 1;
                  Go (keyOf n) Handler.Run; WGDone].
Proof.
  intros Habsent.
  unfold checkIfNetworkRestartNeeded, startNetwork.
  rewrite !bind_run. unfold getS; simpl. rewrite Habsent.
  rewrite !bind_run. unfold getS; simpl. rewrite Habsent.
  rewrite !bind_run, addAndRun_run. done.
Qed.

(** ** [UpdateNetwork] *)

Lemma startNetwork_nil n w : (startNetwork n w).1 = None.
Proof.
  unfold startNetwork. rewrite bind_run. unfold getS; simpl.
  destruct (handlers (svc w) !! keyOf n); by rewrite bind_run.
Qed.

Lemma StopAndRemoveNetwork_nil k w : (StopAndRemoveNetwork k w).1 = None.
Proof.
  destruct (handlers (svc w) !! k) as [h|] eqn:Hk.
  - by rewrite (StopAndRemoveNetwork_found k w h Hk).
  - by rewrite (StopAndRemoveNetwork_absent k w Hk).
Qed.

Lemma checkIfNetworkRestartNeeded_nil n w :
  (checkIfNetworkRestartNeeded n w).1 = None.
Proof.
  destruct (handlers (svc w) !! keyOf n) as [h|] eqn:Hk.
  - destruct (Connected h) eqn:Hconn.
    + destruct (restartNeeded (GetNetwork h) n) eqn:Hrestart.
      * unfold checkIfNetworkRestartNeeded, mbind, M_bind, getS; simpl.
        by rewrite Hk, Hconn, Hrestart.
      * by rewrite (reconcile_live n w h Hk Hconn Hrestart).
    + unfold checkIfNetworkRestartNeeded, mbind, M_bind, getS; simpl.
      by rewrite Hk, Hconn.
  - unfold checkIfNetworkRestartNeeded. rewrite !bind_run. unfold getS; simpl.
    rewrite Hk. by rewrite bind_run.
Qed.

Lemma liftRepo_run {A} (f : R → A * R) w :
  liftRepo f w
  = ((f (repo (svc w))).1, mkWorld (withRepo (f (repo (svc w))).2 (svc w)) (trace w)).
Proof. unfold liftRepo. by destruct (f _). Qed.

Lemma update_tail_error n w1 (e : error) :
  ((err ← liftRepo (RepoUpdateNetwork n);
    match err with
    | Some e0 => mret (Some e0)
    | None =>
        if IrcNetwork.Enabled n
        then err0 ← checkIfNetworkRestartNeeded n;
             match err0 with
             | Some _ => mret (Some ("could not restart network: " +:+ IrcNetwork.Name n))
             | None => mret None
             end
        else err0 ← StopAndRemoveNetwork (keyOf n);
             match err0 with
             | Some _ => mret (Some ("could not stop network: " +:+ IrcNetwork.Name n))
             | None => mret None
             end
    end) w1).1 = Some e →
  (RepoUpdateNetwork n (repo (svc w1))).1 = Some e.
Proof.
  rewrite bind_run, liftRepo_run; simpl.
  destruct (RepoUpdateNetwork n (repo (svc w1))) as [[e2|] r2]; simpl.
  - by intros [= ->].
  - destruct (IrcNetwork.Enabled n); rewrite bind_run.
    + rewrite checkIfNetworkRestartNeeded_nil. by intros [=].
    + rewrite StopAndRemoveNetwork_nil. by intros [=].
Qed.

(** An error of [UpdateNetwork] is always the repository's: the branches
    that answer "could not restart network" and "could not stop network"
    are never taken, since the reconcile and the removal return nil. *)
Theorem UpdateNetwork_error_is_from_repository n w (e : error) :
  (UpdateNetwork n w).1 = Some e →
  persistFails n (repo (svc w)) e.
Proof.
  unfold UpdateNetwork, persistFails. rewrite bind_run.
  destruct (IrcNetwork.Channels n) as [channels|].
  - rewrite liftRepo_run; simpl.
    destruct (StoreNetworkChannels _ channels _) as [[e1|] r1]; simpl.
    + intros [= ->]. by left.
    + intros Hres. right. split; [done|].
      by apply (update_tail_error n {| svc := withRepo r1 (svc w); trace := trace w |}).
  - simpl. apply update_tail_error.
Qed.

(** ** [StartHandlers], [startNetwork] and [restartNetwork] *)

Lemma start_loop (networks : list IrcNetwork.t) w :
  let w' := (forM_ networks (λ network,
               if negb (IrcNetwork.Enabled network) then mret tt
               else addAndRun network) w).2 in
  dom (handlers (svc w'))
  = dom (handlers (svc w)) ∪ list_to_set (keyOf <$> enabledOnly networks)
  ∧ (∀ k, k ∉ keyOf <$> enabledOnly networks →
          handlers (svc w') !! k = handlers (svc w) !! k)
  ∧ stopWG (svc w') = stopWG (svc w)
  ∧ trace w' = trace w ++ (enabledOnly networks ≫= startBlock).
Proof.
  revert w. induction networks as [|n networks IH]; intros w; simpl.
  - rewrite app_nil_r. repeat split; try done.
    unfold enabledOnly; simpl. by rewrite union_empty_r_L.
  - rewrite bind_run. unfold enabledOnly.
    destruct (IrcNetwork.Enabled n) eqn:Hen.
    + rewrite filter_cons_True by done. cbn [negb]. rewrite addAndRun_run; simpl.
      match goal with |- context [forM_ networks ?body ?w1] =>
        destruct (IH w1) as (Hdom & Hframe & Hwg & Htrace) end.
      simpl in *. repeat split.
      * rewrite Hdom, dom_insert_L. unfold enabledOnly.
        by rewrite (assoc_L (∪) (dom _)), (comm_L (∪) (dom _) {[_]}).
      * intros k Hk. apply not_elem_of_cons in Hk.
        destruct Hk as [Hne Hk]. rewrite Hframe by done.
        by rewrite lookup_insert_ne.
      * done.
      * rewrite Htrace. rewrite <- app_assoc. done.
    + rewrite filter_cons_False by (by rewrite Hen). apply IH.
Qed.

(** [StartHandlers] adds a handler for every enabled network the
    repository lists and for no other: the keys of the map grow by the
    keys of the enabled networks and every other entry stays as it was. *)
Theorem StartHandlers_adds_enabled_networks w :
  dom (handlers (svc (StartHandlers w).2))
  = dom (handlers (svc w))
    ∪ list_to_set (keyOf <$> enabledOnly (FindActiveNetworks (repo (svc w))).1.1)
  ∧ (∀ k, k ∉ keyOf <$> enabledOnly (FindActiveNetworks (repo (svc w))).1.1 →
          handlers (svc (StartHandlers w).2) !! k = handlers (svc w) !! k).
Proof.
  unfold StartHandlers. rewrite bind_run, liftRepo_run; simpl.
  destruct (FindActiveNetworks (repo (svc w))) as [[networks err] r]; simpl.
  destruct (start_loop networks {| svc := withRepo r (svc w); trace := trace w |})
    as (Hdom & Hframe & _ & _).
  done.
Qed.

(** [StartHandlers] starts one [Run] goroutine per enabled network, in the
    order of the repository's list, each right between [Add(1)] and
    [Done()]: at return the counter of the wait group is what it was,
    however many goroutines run. *)
Theorem StartHandlers_wait_group_is_balanced w :
  stopWG (svc (StartHandlers w).2) = stopWG (svc w)
  ∧ trace (StartHandlers w).2
    = trace w ++ (enabledOnly (FindActiveNetworks (repo (svc w))).1.1 ≫= startBlock).
Proof.
  unfold StartHandlers. rewrite bind_run, liftRepo_run; simpl.
  destruct (FindActiveNetworks (repo (svc w))) as [[networks err] r]; simpl.
  destruct (start_loop networks {| svc := withRepo r (svc w); trace := trace w |})
    as (_ & _ & Hwg & Htrace).
  done.
Qed.

(** For a network that has a handler, [startNetwork] and [restartNetwork]
    return nil and leave the supervisor as it is; [startNetwork] starts
    [Run] only when the client is not connected and [restartNetwork]
    starts [Restart] only when it is, each in a goroutine. *)
Theorem start_and_restart_of_existing_handler n w h :
  handlers (svc w) !! keyOf n = Some h →
  startNetwork n w
  = (None, if Connected h then w
           else mkWorld (svc w) (trace w ++ [Go (keyOf n) Handler.Run]))
  ∧ restartNetwork n w
    = (None, if Connected h
             then mkWorld (svc w) (trace w ++ [Go (keyOf n) Handler.Restart])
             else w).
Proof.
  intros Hfound.
  unfold startNetwork, restartNetwork, mbind, M_bind, getS; simpl.
  rewrite Hfound. by destruct (Connected h).
Qed.

(** [restartNetwork] does nothing for a network without handler. *)
Lemma restartNetwork_absent n w :
  handlers (svc w) !! keyOf n = None → restartNetwork n w = (None, w).
Proof.
  intros Habsent. unfold restartNetwork, mbind, M_bind, getS; simpl.
  by rewrite Habsent.
Qed.

End WithCollaborators.

(** ** Queries, [DeleteNetwork] and [StoreNetwork] *)

Section WithRepository.
Context {H R : Type} `{!HandlerOps H} `{!HandlerHealth H}
        `{!IrcRepo R} `{!IrcRepoStore R} `{!IndexerService} {lowering : Strings}.
Implicit Types (w : world (H:=H) (R:=R)) (n : IrcNetwork.t) (k : handlerKey).

Lemma sameSupervisor_refl w : sameSupervisor w w.
Proof. by unfold sameSupervisor. Qed.

Lemma sameSupervisor_trans w1 w2 w3 :
  sameSupervisor w1 w2 → sameSupervisor w2 w3 → sameSupervisor w1 w3.
Proof. unfold sameSupervisor. intros (?&?&?&?&?) (?&?&?&?&?). repeat split; congruence. Qed.

Lemma liftRepo_same {A} (f : R → A * R) w : sameSupervisor w (liftRepo f w).2.
Proof. rewrite liftRepo_run. by unfold sameSupervisor. Qed.

Lemma GetNetworkByID_same id w : sameSupervisor w (GetNetworkByID id w).2.
Proof.
  unfold GetNetworkByID. rewrite bind_run.
  pose proof (liftRepo_same (RepoGetNetworkByID id) w) as H1.
  destruct (liftRepo (RepoGetNetworkByID id) w) as [[network|e] w1]; simpl in *; [|done].
  rewrite bind_run.
  pose proof (liftRepo_same (ListChannels (IrcNetwork.ID network)) w1) as H2.
  destruct (liftRepo (ListChannels (IrcNetwork.ID network)) w1) as [[channels [e|]] w2];
    simpl in *; by eapply sameSupervisor_trans.
Qed.

Lemma listLoop_same networks ret w : sameSupervisor w (listLoop networks ret w).2.
Proof.
  revert ret w. induction networks as [|n networks IH]; intros ret w; simpl.
  - apply sameSupervisor_refl.
  - rewrite bind_run.
    pose proof (liftRepo_same (ListChannels (IrcNetwork.ID n)) w) as H1.
    destruct (liftRepo (ListChannels (IrcNetwork.ID n)) w) as [[channels [e|]] w1];
      simpl in *; [done|].
    eapply sameSupervisor_trans; [done|apply IH].
Qed.

Lemma healthLoop_same networks ret w : sameSupervisor w (healthLoop networks ret w).2.
Proof.
  revert ret w. induction networks as [|n networks IH]; intros ret w; simpl.
  - apply sameSupervisor_refl.
  - rewrite !bind_run. unfold getS; simpl.
    pose proof (liftRepo_same (ListChannels (IrcNetwork.ID n)) w) as H1.
    destruct (liftRepo (ListChannels (IrcNetwork.ID n)) w) as [[channels [e|]] w1];
      simpl in *; [done|].
    eapply sameSupervisor_trans; [done|apply IH].
Qed.

(** The three queries only read: [GetNetworkByID], [ListNetworks] and
    [GetNetworksWithHealth] leave the handlers, the performed operations,
    the indexer map, the wait group and the lock as they were, whether they
    succeed or fail. *)
Theorem queries_leave_supervisor_alone id w :
  sameSupervisor w (GetNetworkByID id w).2
  ∧ sameSupervisor w (ListNetworks w).2
  ∧ sameSupervisor w (GetNetworksWithHealth w).2.
Proof.
  split; [apply GetNetworkByID_same|]. split.
  - unfold ListNetworks. rewrite bind_run.
    pose proof (liftRepo_same RepoListNetworks w) as H1.
    destruct (liftRepo RepoListNetworks w) as [[networks [e|]] w1]; simpl in *; [done|].
    eapply sameSupervisor_trans; [done|apply listLoop_same].
  - unfold GetNetworksWithHealth. rewrite bind_run.
    pose proof (liftRepo_same RepoListNetworks w) as H1.
    destruct (liftRepo RepoListNetworks w) as [[networks [e|]] w1]; simpl in *; [done|].
    eapply sameSupervisor_trans; [done|apply healthLoop_same].
Qed.

Lemma listLoop_entries networks ret w result :
  listChannelsReads (R:=R) →
  (listLoop networks ret w).1 = inl result
  ↔ ∃ more, result = ret ++ more
            ∧ Forall2 (withListedChannels (repo (svc w))) networks more.
Proof.
  intros Hread. revert ret w.
  induction networks as [|n networks IH]; intros ret w; simpl.
  - split.
    + intros [= <-]. exists []. by rewrite app_nil_r.
    + intros (more & -> & Hall). apply Forall2_nil_inv_l in Hall as ->.
      by rewrite app_nil_r.
  - rewrite bind_run, liftRepo_run.
    pose proof (Hread (IrcNetwork.ID n) (repo (svc w))) as Hsame.
    destruct (ListChannels (IrcNetwork.ID n) (repo (svc w)))
      as [[channels err] r] eqn:Hlist.
    simpl in Hsame. subst r. simpl.
    destruct err as [e|]; simpl.
    + split; [done|].
      intros (more & _ & Hall).
      apply Forall2_cons_inv_l in Hall as (m & more' & [He _] & _).
      by rewrite Hlist in He.
    + rewrite IH. simpl. split.
      * intros (more & -> & Hall). eexists (_ :: more). rewrite <- app_assoc.
        split; [done|]. constructor; [|done].
        unfold withListedChannels. by rewrite Hlist.
      * intros (more & -> & Hall).
        apply Forall2_cons_inv_l in Hall as (m & more' & [_ Hm] & Hall & ->).
        rewrite Hlist in Hm. simpl in Hm. subst m.
        exists more'. rewrite <- app_assoc. by split.
Qed.

(** If listing channels only reads the repository, [ListNetworks] succeeds
    exactly when the repository lists the networks and then the channels of
    each of them without error, and what it returns is one network per
    listed network, in the same order: the listed network with the
    channels that [ListChannels] gives for its id appended to its own. *)
Theorem ListNetworks_entries w result :
  listChannelsReads (R:=R) →
  (ListNetworks w).1 = inl result
  ↔ (RepoListNetworks (repo (svc w))).1.2 = None
    ∧ Forall2 (withListedChannels (RepoListNetworks (repo (svc w))).2)
              (RepoListNetworks (repo (svc w))).1.1 result.
Proof.
  intros Hread. unfold ListNetworks. rewrite bind_run, liftRepo_run; simpl.
  destruct (RepoListNetworks (repo (svc w))) as [[networks [e|]] r]; simpl.
  - split; [done|]. by intros [? _].
  - rewrite (listLoop_entries _ _ _ _ Hread). simpl. split.
    + by intros (more & -> & Hall).
    + intros [_ Hall]. by exists result.
Qed.

Lemma healthLoop_entries networks ret w result :
  (healthLoop networks ret w).1 = inl result →
  ∃ more, result = ret ++ more
          ∧ Forall2 (healthEntry (repo (svc w)) (handlers (svc w))) networks more.
Proof.
  revert ret w. induction networks as [|n networks IH]; intros ret w; simpl.
  - intros [= <-]. exists []. by rewrite app_nil_r.
  - rewrite !bind_run, liftRepo_run. unfold getS; simpl.
    destruct (ListChannels (IrcNetwork.ID n) (repo (svc w)))
      as [[channels err] r] eqn:Hlist.
    destruct err as [e|]; simpl; [done|].
    intros Hres. apply IH in Hres as (more & -> & Hall). simpl in Hall.
    eexists (_ :: more). rewrite <- app_assoc. split; [done|].
    constructor.
    + exists (default [] channels). split.
      * unfold networkWithHealth.
        destruct (handlers (svc w) !! keyOf n) as [h|]; simpl;
          [by destruct (Connected h)|done].
      * intros _. by rewrite Hlist.
    + eapply Forall2_impl; [exact Hall|].
      intros n' netw (channels' & -> & Htie). exists channels'. split; [done|].
      intros Hread. rewrite (Htie Hread).
      pose proof (Hread (IrcNetwork.ID n) (repo (svc w))) as Hsame.
      rewrite Hlist in Hsame. simpl in Hsame. by subst r.
Qed.

(** When [GetNetworksWithHealth] succeeds it returns one entry per network
    of the repository's list, in order and under the network's id.  A
    network without handler is reported as not connected with no channel
    monitored.  With a handler, [Connected] is the handler's flag while its
    client is connected and false otherwise, and the health of a channel is
    the handler's entry under [strings.ToLower] of the channel name,
    whatever that function makes of the name.  If listing channels only
    reads the repository, the entry has one channel per channel that
    [ListChannels] gives for the network's id, in order and under its
    name. *)
Theorem GetNetworksWithHealth_entries w result :
  (GetNetworksWithHealth w).1 = inl result →
  Forall2
    (λ n netw,
       IrcNetworkWithHealth.ID netw = IrcNetwork.ID n
       ∧ (handlers (svc w) !! keyOf n = None →
          IrcNetworkWithHealth.Connected netw = false
          ∧ Forall (λ c, ChannelWithHealth.Monitoring c = false)
                   (IrcNetworkWithHealth.Channels netw))
       ∧ (∀ h, handlers (svc w) !! keyOf n = Some h →
               IrcNetworkWithHealth.Connected netw = Connected h && connected h
               ∧ Forall (λ c, ChannelWithHealth.Monitoring c
                              = default false
                                  (monitoring
                                     <$> healthOf h
                                         !! strings_ToLower (ChannelWithHealth.Name c)))
                        (IrcNetworkWithHealth.Channels netw))
       ∧ (listChannelsReads (R:=R) →
          ChannelWithHealth.Name <$> IrcNetworkWithHealth.Channels netw
          = IrcChannel.Name
              <$> default [] (ListChannels (IrcNetwork.ID n)
                                (RepoListNetworks (repo (svc w))).2).1.1))
    (RepoListNetworks (repo (svc w))).1.1 result.
Proof.
  unfold GetNetworksWithHealth. rewrite bind_run.
  destruct (liftRepo_same RepoListNetworks w) as (Hh & _).
  rewrite liftRepo_run in *; simpl in *.
  destruct (RepoListNetworks (repo (svc w))) as [[networks [e|]] r]; simpl in *; [done|].
  intros Hres. apply healthLoop_entries in Hres as (more & -> & Hall).
  simpl in *. eapply Forall2_impl; [exact Hall|].
  intros n netw (channels & -> & Htie). simpl.
  split.
  { unfold networkWithHealth.
    destruct (handlers (svc w) !! keyOf n) as [h|]; simpl;
      [by destruct (Connected h)|done]. }
  split; [|split].
  - intros ->. simpl. split; [done|]. rewrite Forall_fmap. by apply Forall_true.
  - intros h ->. unfold networkWithHealth. simpl. split; [by destruct (Connected h)|].
    rewrite Forall_fmap. apply Forall_true. intros c. simpl.
    destruct (healthOf h !! strings_ToLower (IrcChannel.Name c)) as [chan1|] eqn:Hc;
      simpl; by rewrite Hc.
  - intros Hread. rewrite <- (Htie Hread), <- list_fmap_compose.
    apply list_fmap_ext. intros i c _. unfold channelWithHealth. simpl.
    destruct (handlers (svc w) !! keyOf n) as [h|]; [|done].
    by destruct (healthOf h !! strings_ToLower (IrcChannel.Name c)).
Qed.

(** When the network cannot be read, [DeleteNetwork] returns the error of
    the lookup; no handler is stopped or removed and the repository's
    delete is not called. *)
Theorem DeleteNetwork_lookup_failure id w (e : error) :
  (GetNetworkByID id w).1 = inr e →
  DeleteNetwork id w = (Some e, (GetNetworkByID id w).2)
  ∧ sameSupervisor w (DeleteNetwork id w).2.
Proof.
  intros Hres. unfold DeleteNetwork. rewrite bind_run, Hres. simpl.
  split; [done|]. apply GetNetworkByID_same.
Qed.

(** When the network is read, [DeleteNetwork] stops and removes the
    handler under the key of the stored network before it calls the
    repository's delete, and returns what that call returns: if the
    repository's delete fails the handler is gone all the same. *)
Theorem DeleteNetwork_removes_handler_first id w network :
  (GetNetworkByID id w).1 = inl network →
  handlers (svc (DeleteNetwork id w).2) = delete (keyOf network) (handlers (svc w))
  ∧ (DeleteNetwork id w).1
    = (RepoDeleteNetwork id (repo (svc (GetNetworkByID id w).2))).1
  ∧ (∀ h, handlers (svc w) !! keyOf network = Some h →
          trace (DeleteNetwork id w).2
          = trace w ++ [Call (keyOf network) Handler.Stop; MapDelete (keyOf network)]).
Proof.
  intros Hres. unfold DeleteNetwork. rewrite bind_run, Hres.
  destruct (GetNetworkByID_same id w) as (Hh & Ht & _).
  destruct (GetNetworkByID id w) as [res w1]; simpl in *.
  rewrite bind_run.
  assert (Hstop : (StopAndRemoveNetwork (keyOf network) w1).1 = None
                  ∧ handlers (svc (StopAndRemoveNetwork (keyOf network) w1).2)
                    = delete (keyOf network) (handlers (svc w))
                  ∧ repo (svc (StopAndRemoveNetwork (keyOf network) w1).2) = repo (svc w1)
                  ∧ (∀ h, handlers (svc w) !! keyOf network = Some h →
                          trace (StopAndRemoveNetwork (keyOf network) w1).2
                          = trace w ++ [Call (keyOf network) Handler.Stop;
                                        MapDelete (keyOf network)])).
  { destruct (handlers (svc w1) !! keyOf network) as [h|] eqn:Hk.
    - rewrite (StopAndRemoveNetwork_found _ _ h Hk); simpl.
      rewrite Hh, Ht. by repeat split.
    - rewrite (StopAndRemoveNetwork_absent _ _ Hk); simpl.
      rewrite Hh in Hk. repeat split; try done.
      + rewrite Hh. by rewrite delete_id.
      + intros h Hfound. congruence. }
  destruct Hstop as (Hnil & Hmap & Hrepo & Htrace).
  destruct (StopAndRemoveNetwork (keyOf network) w1) as [err w2]; simpl in *.
  subst err. rewrite bind_run, liftRepo_run; simpl. rewrite Hrepo.
  destruct (RepoDeleteNetwork id (repo (svc w1))) as [[e|] r]; simpl; by repeat split.
Qed.

Lemma storeChannels_same id channels w : sameSupervisor w (storeChannels id channels w).2.
Proof.
  revert w. induction channels as [|c channels IH]; intros w; simpl.
  - apply sameSupervisor_refl.
  - rewrite bind_run.
    pose proof (liftRepo_same (RepoStoreChannel id c) w) as H1.
    destruct (liftRepo (RepoStoreChannel id c) w) as [[e|] w1]; simpl in *; [done|].
    eapply sameSupervisor_trans; [done|apply IH].
Qed.

Lemma store_new_same n w :
  (CheckExistingNetwork n (repo (svc w))).1 = (None, None) →
  sameSupervisor w (StoreNetwork n w).2.
Proof.
  intros Hnew. unfold StoreNetwork. rewrite bind_run.
  pose proof (liftRepo_same (CheckExistingNetwork n) w) as H1.
  rewrite liftRepo_run in *; simpl in *. rewrite Hnew. simpl.
  rewrite bind_run.
  match goal with |- context [liftRepo ?f ?w1] =>
    pose proof (liftRepo_same f w1) as H2;
    destruct (liftRepo f w1) as [[[e|] n'] w2] end; simpl in *.
  - by eapply sameSupervisor_trans.
  - destruct (IrcNetwork.Channels n') as [channels|]; simpl.
    + eapply sameSupervisor_trans; [|apply storeChannels_same].
      by eapply sameSupervisor_trans.
    + by eapply sameSupervisor_trans.
Qed.

(** Storing a network the repository does not know yet starts no handler
    and performs no operation on the supervisor, enabled or not. *)
Theorem StoreNetwork_new_starts_nothing n w :
  (CheckExistingNetwork n (repo (svc w))).1 = (None, None) →
  sameSupervisor w (StoreNetwork n w).2.
Proof. apply store_new_same. Qed.

(** An error of [StoreNetwork] is raised before any handler is touched:
    when it returns an error the handlers, the performed operations, the
    wait group and the lock are as before. *)
Theorem StoreNetwork_error_leaves_supervisor n w (e : error) :
  (StoreNetwork n w).1 = Some e →
  sameSupervisor w (StoreNetwork n w).2.
Proof.
  destruct (CheckExistingNetwork n (repo (svc w))) as [[existing err] r] eqn:Hcheck.
  destruct err as [err|]; [|destruct existing as [existing|]].
  - intros _. unfold StoreNetwork. rewrite bind_run, liftRepo_run, Hcheck. simpl.
    by unfold sameSupervisor.
  - unfold StoreNetwork. rewrite bind_run, liftRepo_run, Hcheck. simpl.
    rewrite bind_run.
    set (w1 := {| svc := withRepo r (svc w); trace := trace w |}).
    assert (H1 : sameSupervisor w w1) by (by unfold sameSupervisor).
    pose proof (liftRepo_same (ListChannels (IrcNetwork.ID existing)) w1) as H2.
    destruct (liftRepo (ListChannels (IrcNetwork.ID existing)) w1)
      as [[existingChannels err] w2]; simpl in *.
    rewrite bind_run.
    destruct (IrcNetwork.Channels n) as [channels|]; simpl.
    + pose proof (storeChannels_same (IrcNetwork.ID existing) channels w2) as H3.
      destruct (storeChannels (IrcNetwork.ID existing) channels w2) as [[e3|] w3];
        simpl in *.
      * intros _. eapply sameSupervisor_trans; [|done].
        by eapply sameSupervisor_trans.
      * destruct (IrcNetwork.Enabled existing);
          [rewrite bind_run, checkIfNetworkRestartNeeded_nil|]; by intros [=].
    + destruct (IrcNetwork.Enabled existing);
        [rewrite bind_run, checkIfNetworkRestartNeeded_nil|]; by intros [=].
  - intros _. apply store_new_same. by rewrite Hcheck.
Qed.


End WithRepository.

(** ** The statements at sample configurations *)

Import (hints) Sample SampleMore.

(** The running Redacted network is submitted again unchanged. *)
Lemma reconcile_unchanged_is_quiet_sample :
  let n := Sample.net [Sample.channel "#red-announce"] in
  let w := Sample.running false n in
  (handlers (svc w) !! keyOf n = Some (Sample.mkHandler n true [])
   ∧ sameTransport n n)
  ∧ checkIfNetworkRestartNeeded n w = (None, after (keyOf n) (refreshCalls n) w).
Proof.
  intros n w.
  assert (Hfound : handlers (svc w) !! keyOf n = Some (Sample.mkHandler n true []))
    by (vm_compute; reflexivity).
  assert (Htransport : sameTransport n n) by (repeat split).
  split; [done|].
  exact (reconcile_unchanged_is_quiet n w (Sample.mkHandler n true [])
           Hfound eq_refl Htransport eq_refl eq_refl).
Defined.

(** The handler has lost its connection and the port is edited. *)
Lemma reconcile_skips_disconnected_sample :
  let handler := Sample.net [Sample.channel "#red-announce"] in
  let n := Sample.withPort 7000 handler in
  let w := SampleMore.stalled handler in
  handlers (svc w) !! keyOf n = Some (Sample.mkHandler handler false [])
  ∧ checkIfNetworkRestartNeeded n w = (None, w).
Proof.
  intros handler n w.
  assert (Hfound : handlers (svc w) !! keyOf n = Some (Sample.mkHandler handler false []))
    by (vm_compute; reflexivity).
  split; [done|].
  exact (reconcile_skips_disconnected n w (Sample.mkHandler handler false [])
           Hfound eq_refl).
Defined.

(** The handler stored under the network's key still runs under the nick
    [old-nick] and an old password. *)
Lemma nick_change_precedes_identify_sample :
  let n := Sample.net [Sample.channel "#red-announce"] in
  let handler := SampleMore.withAccount "old-nick" (Sample.withNickServPassword "old" n) in
  let h := Sample.mkHandler handler true [] in
  let w := SampleMore.stocked false [n] ∅ {[ keyOf n := h ]} in
  let calls := Handler.HandleNickChange "user-autodl"
               :: partCalls handler n ++ joinCalls handler n ++ refreshCalls n in
  (handlers (svc w) !! keyOf n = Some h ∧ sameTransport handler n)
  ∧ checkIfNetworkRestartNeeded n w = (None, after (keyOf n) calls w)
  ∧ Forall (λ c, ∀ account password,
                   c ≠ Handler.HandleNickServIdentify account password) calls.
Proof.
  intros n handler h w calls.
  assert (Hfound : handlers (svc w) !! keyOf n = Some h) by (vm_compute; reflexivity).
  assert (Htransport : sameTransport handler n) by (repeat split).
  split; [done|].
  refine (nick_change_precedes_identify n w h Hfound eq_refl Htransport _).
  discriminate.
Defined.

(** The NickServ account of the running network is edited: no handler is
    stored under the new key. *)
Lemma reconcile_starts_missing_handler_sample :
  let handler := Sample.net [Sample.channel "#red-announce"] in
  let n := SampleMore.withAccount "new-nick" handler in
  let w := Sample.running false handler in
  handlers (svc w) !! keyOf n = None
  ∧ (checkIfNetworkRestartNeeded n w).1 = None
  ∧ handlers (svc (checkIfNetworkRestartNeeded n w).2)
    = <[keyOf n := NewHandler
                     (IrcNetwork.setChannels
                        (ListChannels (IrcNetwork.ID n) (repo (svc w))).1.1 n)
                     (GetIndexersByIRCNetwork (IrcNetwork.Server n))]>
        (handlers (svc w))
  ∧ trace (checkIfNetworkRestartNeeded n w).2
    = trace w ++ [Lock; MapStore (keyOf n); Unlock; WGAdd 1;
                  Go (keyOf n) Handler.Run; WGDone].
Proof.
  intros handler n w.
  assert (Habsent : handlers (svc w) !! keyOf n = None) by (vm_compute; reflexivity).
  split; [done|].
  exact (reconcile_starts_missing_handler n w Habsent).
Defined.

(** The repository is down. *)
Lemma UpdateNetwork_error_is_from_repository_sample :
  let n := Sample.net [Sample.channel "#red-announce"] in
  let w := Sample.running true n in
  (UpdateNetwork n w).1 = Some "database is down"
  ∧ persistFails n (repo (svc w)) "database is down".
Proof.
  intros n w.
  assert (Herr : (UpdateNetwork n w).1 = Some "database is down")
    by (vm_compute; reflexivity).
  split; [done|].
  exact (UpdateNetwork_error_is_from_repository n w "database is down" Herr).
Defined.

(** A connected handler: [startNetwork] does nothing, [restartNetwork]
    starts [Restart]. *)
Lemma start_and_restart_of_existing_handler_sample :
  let n := Sample.net [Sample.channel "#red-announce"] in
  let w := Sample.running false n in
  handlers (svc w) !! keyOf n = Some (Sample.mkHandler n true [])
  ∧ startNetwork n w = (None, w)
  ∧ restartNetwork n w
    = (None, mkWorld (svc w) (trace w ++ [Go (keyOf n) Handler.Restart])).
Proof.
  intros n w.
  assert (Hfound : handlers (svc w) !! keyOf n = Some (Sample.mkHandler n true []))
    by (vm_compute; reflexivity).
  split; [done|].
  exact (start_and_restart_of_existing_handler n w (Sample.mkHandler n true []) Hfound).
Defined.

(** Two stored networks; the channel table holds one channel for the
    first.  The sample repository answers [ListChannels] from its table
    and leaves it alone. *)
Lemma ListNetworks_entries_sample :
  let w := SampleMore.twoNetworks in
  let result := [Sample.net [Sample.channel "#Red-Announce"];
                 SampleMore.withID 2 (SampleMore.withAccount "second" (Sample.net []))] in
  listChannelsReads (R:=Sample.store)
  ∧ (ListNetworks w).1 = inl result
  ∧ (RepoListNetworks (repo (svc w))).1.2 = None
  ∧ Forall2 (withListedChannels (RepoListNetworks (repo (svc w))).2)
            (RepoListNetworks (repo (svc w))).1.1 result.
Proof.
  intros w result.
  assert (Hread : listChannelsReads (R:=Sample.store)) by (intros id r; reflexivity).
  assert (Hres : (ListNetworks w).1 = inl result) by (vm_compute; reflexivity).
  split; [done|]. split; [done|].
  exact (proj1 (ListNetworks_entries w result Hread) Hres).
Defined.

(** The first network has a connected handler; its stored channel is
    written [#Red-Announce] and the handler's health is kept under
    [#red-announce]. *)
Lemma GetNetworksWithHealth_entries_sample :
  let w := SampleMore.twoNetworks in
  let result := match (GetNetworksWithHealth w).1 with
                | inl result => result
                | inr _ => []
                end in
  ((GetNetworksWithHealth w).1 = inl result
   ∧ listChannelsReads (R:=Sample.store)
   ∧ (IrcNetworkWithHealth.Connected <$> result) = [true; false]
   ∧ (λ netw, ChannelWithHealth.Name <$> IrcNetworkWithHealth.Channels netw)
       <$> result = [["#Red-Announce"]; []]
   ∧ (λ netw, ChannelWithHealth.Monitoring <$> IrcNetworkWithHealth.Channels netw)
       <$> result = [[true]; []])
  ∧ Forall2
      (λ n netw,
         IrcNetworkWithHealth.ID netw = IrcNetwork.ID n
         ∧ (handlers (svc w) !! keyOf n = None →
            IrcNetworkWithHealth.Connected netw = false
            ∧ Forall (λ c, ChannelWithHealth.Monitoring c = false)
                     (IrcNetworkWithHealth.Channels netw))
         ∧ (∀ h, handlers (svc w) !! keyOf n = Some h →
                 IrcNetworkWithHealth.Connected netw = Connected h && connected h
                 ∧ Forall (λ c, ChannelWithHealth.Monitoring c
                                = default false
                                    (monitoring
                                       <$> healthOf h
                                           !! strings_ToLower (ChannelWithHealth.Name c)))
                          (IrcNetworkWithHealth.Channels netw))
         ∧ (listChannelsReads (R:=Sample.store) →
            ChannelWithHealth.Name <$> IrcNetworkWithHealth.Channels netw
            = IrcChannel.Name
                <$> default [] (ListChannels (IrcNetwork.ID n)
                                  (RepoListNetworks (repo (svc w))).2).1.1))
      (RepoListNetworks (repo (svc w))).1.1 result.
Proof.
  intros w result.
  assert (Hres : (GetNetworksWithHealth w).1 = inl result)
    by (vm_compute; reflexivity).
  assert (Hread : listChannelsReads (R:=Sample.store)) by (intros id r; reflexivity).
  split; [by repeat split|].
  exact (GetNetworksWithHealth_entries w result Hres).
Defined.

(** No network has the id 7. *)
Lemma DeleteNetwork_lookup_failure_sample :
  (GetNetworkByID 7 SampleMore.twoNetworks).1 = inr "no such network"
  ∧ DeleteNetwork 7 SampleMore.twoNetworks
    = (Some "no such network", (GetNetworkByID 7 SampleMore.twoNetworks).2)
  ∧ sameSupervisor SampleMore.twoNetworks (DeleteNetwork 7 SampleMore.twoNetworks).2.
Proof.
  assert (Hres : (GetNetworkByID 7 SampleMore.twoNetworks).1 = inr "no such network")
    by (vm_compute; reflexivity).
  split; [done|].
  exact (DeleteNetwork_lookup_failure 7 SampleMore.twoNetworks "no such network" Hres).
Defined.

(** The repository is down, so its delete fails; the handler of the
    running network is removed all the same. *)
Lemma DeleteNetwork_removes_handler_first_sample :
  let n := Sample.net [Sample.channel "#red-announce"] in
  let w := Sample.running true n in
  ((GetNetworkByID 1 w).1 = inl n
   ∧ (DeleteNetwork 1 w).1 = Some "database is down"
   ∧ handlers (svc (DeleteNetwork 1 w).2) !! keyOf n = None)
  ∧ handlers (svc (DeleteNetwork 1 w).2) = delete (keyOf n) (handlers (svc w))
  ∧ (DeleteNetwork 1 w).1
    = (RepoDeleteNetwork 1 (repo (svc (GetNetworkByID 1 w).2))).1
  ∧ (∀ h, handlers (svc w) !! keyOf n = Some h →
          trace (DeleteNetwork 1 w).2
          = trace w ++ [Call (keyOf n) Handler.Stop; MapDelete (keyOf n)]).
Proof.
  intros n w.
  assert (Hres : (GetNetworkByID 1 w).1 = inl n) by (vm_compute; reflexivity).
  split; [repeat split; vm_compute; reflexivity|].
  exact (DeleteNetwork_removes_handler_first 1 w n Hres).
Defined.

(** An enabled network under a third account is stored for the first
    time. *)
Lemma StoreNetwork_new_starts_nothing_sample :
  let n := SampleMore.withAccount "third" (Sample.net [Sample.channel "#x"]) in
  ((CheckExistingNetwork n (repo (svc SampleMore.twoNetworks))).1 = (None, None)
   ∧ IrcNetwork.Enabled n = true
   ∧ (StoreNetwork n SampleMore.twoNetworks).1 = None)
  ∧ sameSupervisor SampleMore.twoNetworks (StoreNetwork n SampleMore.twoNetworks).2.
Proof.
  intros n.
  assert (Hnew : (CheckExistingNetwork n (repo (svc SampleMore.twoNetworks))).1 = (None, None))
    by (vm_compute; reflexivity).
  split; [repeat split; vm_compute; reflexivity|].
  exact (StoreNetwork_new_starts_nothing n SampleMore.twoNetworks Hnew).
Defined.


(** The running, enabled network is submitted with a channel the
    repository refuses: the reconcile is not reached. *)
Lemma StoreNetwork_error_leaves_supervisor_sample :
  let n := Sample.net [Sample.channel ""] in
  (StoreNetwork n SampleMore.twoNetworks).1 = Some "empty channel name"
  ∧ sameSupervisor SampleMore.twoNetworks (StoreNetwork n SampleMore.twoNetworks).2.
Proof.
  intros n.
  assert (Herr : (StoreNetwork n SampleMore.twoNetworks).1 = Some "empty channel name")
    by (vm_compute; reflexivity).
  split; [done|].
  exact (StoreNetwork_error_leaves_supervisor n SampleMore.twoNetworks
           "empty channel name" Herr).
Defined.

(** The handler on [#a,#b] is reconciled twice with [#b,#c]; the sample
    handler takes the network as its snapshot on [SetNetwork]. *)
Lemma reconcile_twice_is_quiet_sample :
  let handler := Sample.net [Sample.channel "#a"; Sample.channel "#b"] in
  let n := Sample.net [Sample.channel "#b"; Sample.channel "#c"] in
  let w := Sample.running false handler in
  (handlers (svc w) !! keyOf n = Some (Sample.mkHandler handler true [])
   ∧ sameTransport handler n
   ∧ trace (checkIfNetworkRestartNeeded n w).2
     = [Call (keyOf n) (Handler.HandlePartChannel "#a");
        Call (keyOf n) (Handler.HandleJoinChannel "#c" "");
        Call (keyOf n) (Handler.SetNetwork n);
        Call (keyOf n) (Handler.InitIndexers [Announce.red])])
  ∧ checkIfNetworkRestartNeeded n (checkIfNetworkRestartNeeded n w).2
    = (None, after (keyOf n) (refreshCalls n) (checkIfNetworkRestartNeeded n w).2).
Proof.
  intros handler n w.
  assert (Hfound : handlers (svc w) !! keyOf n = Some (Sample.mkHandler handler true []))
    by (vm_compute; reflexivity).
  assert (Htransport : sameTransport handler n) by (repeat split).
  split; [repeat split; vm_compute; reflexivity|].
  refine (reconcile_twice_is_quiet n w (Sample.mkHandler handler true [])
            Hfound eq_refl Htransport _ _); vm_compute; reflexivity.
Defined.

End SupervisorMore.

(* ===================================================================== *)
(** * The login handler: further statements *)
(* ===================================================================== *)

Module AuthMore.
Import Http.

Section WithAuthService.
Context `{!authService}.

(** The options [login] leaves in the cookie store for a request whose
    body decodes. *)
Lemma login_store_options h r u :
  Body r = Some u →
  cookieStore (login h r).2
  = if bool_decide (XForwardedProto r = "https")
    then mkOptions (BaseURL h) true true SameSiteStrictMode
    else mkOptions (BaseURL h) (Secure (cookieStore h)) true SameSiteLaxMode.
Proof.
  intros Hbody. unfold login. rewrite Hbody.
  destruct (Login (Username u) (Password u)); simpl; by case_bool_decide.
Qed.

Lemma login_cookie_options h r u :
  Body r = Some u →
  Login (Username u) (Password u) = None →
  CookieOptions <$> SetCookie (login h r).1 = [cookieStore (login h r).2].
Proof. intros Hbody Hlogin. unfold login. by rewrite Hbody, Hlogin. Qed.

(** The cookie of an accepted login is scoped to the base URL and
    HttpOnly; behind [X-Forwarded-Proto: https] it is Secure with
    SameSite=Strict; otherwise it is SameSite=Lax and keeps the Secure flag
    the cookie store had before the request. *)
Theorem login_cookie_attributes h r u :
  Body r = Some u →
  Login (Username u) (Password u) = None →
  ∃ c, SetCookie (login h r).1 = [c]
       ∧ Path (CookieOptions c) = BaseURL h
       ∧ HttpOnly (CookieOptions c) = true
       ∧ (XForwardedProto r = "https" →
          Secure (CookieOptions c) = true
          ∧ SameSiteMode (CookieOptions c) = SameSiteStrictMode)
       ∧ (XForwardedProto r ≠ "https" →
          Secure (CookieOptions c) = Secure (cookieStore h)
          ∧ SameSiteMode (CookieOptions c) = SameSiteLaxMode).
Proof.
  intros Hbody Hlogin.
  pose proof (login_cookie_options h r u Hbody Hlogin) as Hc.
  rewrite (login_store_options h r u Hbody) in Hc.
  destruct (SetCookie (login h r).1) as [|c [|]]; try done.
  injection Hc as Hc. exists c. split; [done|]. rewrite Hc.
  case_bool_decide; simpl; repeat split; done.
Qed.


(** [logout] answers 204 and sets the session cookie with
    [authenticated = false] whatever the request: any request that then
    carries this cookie gets 403 from [GET /test], whatever cookies it had
    before (those of an accepted login included).  [logout] and [test]
    leave the cookie store as it is and [test] sets no cookie. *)
Theorem logout_revokes_session h r :
  Status (logout h r).1 = Some StatusNoContent
  ∧ (∀ h' r', Status (test h' (withCookiesOf (logout h r).1 r')).1
              = Some StatusForbidden)
  ∧ (logout h r).2 = h
  ∧ (test h r).2 = h
  ∧ SetCookie (test h r).1 = [].
Proof.
  assert (Hrevoke : ∀ h1 r1 h' r',
            Status (test h' (withCookiesOf (logout h1 r1).1 r')).1
            = Some StatusForbidden).
  { intros h1 r1 h' r'. unfold test, authenticated, storeGet, withCookiesOf, logout; simpl.
    rewrite lookup_insert_eq; simpl. by rewrite lookup_insert_eq. }
  split; [done|]. split; [apply Hrevoke|].
  split; [done|]. unfold test.
  by destruct (authenticated _) as [[] []].
Qed.

End WithAuthService.

Import (hints) Sample.


(** An accepted login over https at the sample service. *)
Lemma login_cookie_attributes_sample :
  let r := Http.mkRequest (Some (Http.mkUser "admin" "hunter2")) "https" ∅ in
  ∃ c, SetCookie (login Sample.authHandler r).1 = [c]
       ∧ Path (CookieOptions c) = BaseURL Sample.authHandler
       ∧ HttpOnly (CookieOptions c) = true
       ∧ (XForwardedProto r = "https" →
          Secure (CookieOptions c) = true
          ∧ SameSiteMode (CookieOptions c) = SameSiteStrictMode)
       ∧ (XForwardedProto r ≠ "https" →
          Secure (CookieOptions c) = Secure (cookieStore Sample.authHandler)
          ∧ SameSiteMode (CookieOptions c) = SameSiteLaxMode).
Proof.
  intros r.
  exact (login_cookie_attributes Sample.authHandler r (Http.mkUser "admin" "hunter2")
           eq_refl eq_refl).
Defined.

End AuthMore.

(* ===================================================================== *)
(** * The release table: statements *)
(* ===================================================================== *)

Module WebSpec.
Import Web.

Lemma dispatchAll_thrown (actions : list action) :
  foldl (λ acc a, acc ≫= λ s, TableReducer s a) None actions = None.
Proof. by induction actions. Qed.

Lemma handled_types :
  PAGE_CHANGED ≠ PAGE_SIZE_CHANGED ∧ PAGE_CHANGED ≠ TOTAL_COUNT_CHANGED
  ∧ PAGE_CHANGED ≠ FILTER_CHANGED ∧ PAGE_SIZE_CHANGED ≠ TOTAL_COUNT_CHANGED
  ∧ PAGE_SIZE_CHANGED ≠ FILTER_CHANGED ∧ TOTAL_COUNT_CHANGED ≠ FILTER_CHANGED.
Proof. repeat split; discriminate. Qed.

(** Over any sequence of dispatches the four fields of the table state
    evolve independently: if every action is of a handled type, each field
    ends as the payload of the last action of its own type, or as it
    started when there was none; one action of another type makes the
    reducer throw. *)
Theorem TableReducer_fields_are_independent (s : state) (actions : list action) :
  (Forall handled actions →
   dispatchAll s actions
   = Some (mkState (lastPayload PAGE_CHANGED (queryPageIndex s) actions)
                   (lastPayload PAGE_SIZE_CHANGED (queryPageSize s) actions)
                   (lastPayload TOTAL_COUNT_CHANGED (totalCount s) actions)
                   (lastPayload FILTER_CHANGED (queryFilters s) actions)))
  ∧ (Exists (λ a, ¬ handled a) actions → dispatchAll s actions = None).
Proof.
  destruct handled_types as (H12 & H13 & H14 & H23 & H24 & H34).
  unfold dispatchAll, lastPayload. split.
  - intros Hall. revert s. induction Hall as [|a actions Ha Hall IH]; intros s.
    + by destruct s.
    + simpl. unfold TableReducer at 2.
      destruct Ha as [Ht|[Ht|[Ht|Ht]]]; rewrite Ht;
        repeat (first [rewrite bool_decide_eq_true_2 by done
                      |rewrite bool_decide_eq_false_2 by done]);
        simpl; by rewrite IH.
  - intros Hex. revert s. induction Hex as [a actions Ha|a actions Hex IH]; intros s.
    + simpl. unfold TableReducer at 2.
      repeat (case_bool_decide; [exfalso; apply Ha; unfold handled; tauto|]).
      simpl. apply dispatchAll_thrown.
    + simpl. destruct (TableReducer s a) as [s'|]; simpl.
      * apply IH.
      * apply dispatchAll_thrown.
Qed.

End WebSpec.

(* ===================================================================== *)
(** * The bundled definitions: statements *)
(* ===================================================================== *)

Module DefinitionsSpec.
Import Announce Definitions.

Lemma append_nil_right (s : string) : s +:+ "" = s.
Proof.
  induction s as [|c s IH]; [done|].
  change (String c (s +:+ "") = String c s). by rewrite IH.
Qed.

Lemma schemeRest_append (s t : string) :
  schemeRest s = true → schemeRest (s +:+ t) = true.
Proof.
  induction s as [|c s IH]; [done|].
  change (String c s +:+ t) with (String c (s +:+ t)). simpl.
  destruct (Regexp.isChar c ":"); [done|].
  destruct (_ || _); [exact IH|done].
Qed.

Lemma hasScheme_append (s t : string) :
  hasScheme s = true → hasScheme (s +:+ t) = true.
Proof.
  destruct s as [|c s]; [done|].
  change (String c s +:+ t) with (String c (s +:+ t)). simpl.
  intros [Hc Hs]%andb_true_iff. rewrite Hc. by apply schemeRest_append.
Qed.

(** A line whose groups are captured and whose rendered URL has a scheme
    yields a release with that URL. *)
Lemma parseWith_parsed def rule (settings : gmap string string) line groups url :
  Regexp.Compile (pattern rule) ≫= (λ re, Regexp.FindStringSubmatch re line)
    = Some groups →
  render (bindings (bindVars (vars rule) (tail groups)) settings) (torrenturl def) None
    = url →
  hasScheme url = true →
  ∃ r, parseWith def rule settings line = Parsed r ∧ TorrentURL r = url.
Proof.
  intros Hgroups Hurl Hscheme. unfold parseWith. rewrite Hgroups, Hurl, Hscheme.
  rewrite bool_decide_eq_false_2; [by eexists|].
  intros ->. done.
Qed.

Ltac token_names :=
  repeat match goal with
         | |- context [tokenName ?inside] =>
             let name := eval vm_compute in (tokenName inside) in
             change (tokenName inside) with name
         end.

Lemma red_url (dict : gmap string string) :
  render dict (torrenturl red) None
  = default "" (dict !! "baseUrl")
    +:+ "&authkey=" +:+ default "" (dict !! "authkey")
    +:+ "&torrent_pass=" +:+ default "" (dict !! "torrent_pass").
Proof. cbn. token_names. by rewrite append_nil_right. Qed.

Lemma digitalcore_url (dict : gmap string string) :
  render dict (torrenturl digitalcore) None
  = default "" (dict !! "baseUrl")
    +:+ "/" +:+ default "" (dict !! "torrentId")
    +:+ "/" +:+ default "" (dict !! "passkey").
Proof. cbn. token_names. by rewrite append_nil_right. Qed.

Lemma captured_wins (captured settings : gmap string string) name v :
  captured !! name = Some v → bindings captured settings !! name = Some v.
Proof. intros Hc. unfold bindings. by apply lookup_union_Some_l. Qed.

(** The groups each rule captures on its test lines. *)
Lemma red_test_groups :
  captured redLine <$> redTests
  = [Some ["Artist - Albumname"; "2008"; "Single";
           "FLAC / Lossless / Log / 100% / Cue / CD"; "0000000";
           "https://redacted.ch/torrents.php?action=download&id=0000000";
           "hip.hop,rhythm.and.blues,2000s"];
     Some ["A really long name here - Concertos 5 and 6, Suite No 2"; "1991"; "Album";
           "FLAC / Lossless / Log / 100% / Cue / CD"; "0000000";
           "https://redacted.ch/torrents.php?action=download&id=0000000";
           "classical"]].
Proof. vm_compute. reflexivity. Qed.

Lemma digitalcore_test_groups :
  captured digitalcoreLine <$> digitalcoreTests
  = [Some ["Movies/XviD"; "This.is.my.Movie.2019.BRRip.XviD.AC3-iND";
           "https://digitalcore.club/api/v1/torrents/download"; "00000"]].
Proof. vm_compute. reflexivity. Qed.

(** Every test line that the Redacted and the DigitalCore definitions list
    matches the pattern of its rule and yields a release, whatever the
    user's settings (none included): the download URL starts with the
    captured [baseUrl], which carries the scheme. *)
Theorem test_lines_yield_releases (settings : gmap string string) :
  Forall (λ line, ∃ r, parse red settings line = Parsed r
                       ∧ TorrentURL r
                         = "https://redacted.ch/torrents.php?action=download&id=0000000"
                           +:+ "&authkey=" +:+ default "" (settings !! "authkey")
                           +:+ "&torrent_pass=" +:+ default "" (settings !! "torrent_pass"))
         redTests
  ∧ Forall (λ line, ∃ r, parse digitalcore settings line = Parsed r
                         ∧ TorrentURL r
                           = "https://digitalcore.club/api/v1/torrents/download"
                             +:+ "/00000/" +:+ default "" (settings !! "passkey"))
           digitalcoreTests.
Proof.
  split.
  - repeat constructor.
    all: unfold parse; change (parse_lines red) with [redLine]; unfold parseRules.
    all: match goal with |- context [parseWith red redLine ?s ?line] =>
           destruct (parseWith_parsed red redLine s line
                       _ _ ltac:(vm_compute; reflexivity) (red_url _)) as (r & Hr & Hurl)
         end.
    1, 3: erewrite (captured_wins _ _ "baseUrl") by (vm_compute; reflexivity);
          by apply hasScheme_append.
    all: rewrite Hr; exists r; split; [done|]; rewrite Hurl.
    all: erewrite (captured_wins _ _ "baseUrl") by (vm_compute; reflexivity).
    all: unfold bindings; rewrite !lookup_union_r by (vm_compute; reflexivity).
    all: done.
  - repeat constructor.
    unfold parse; change (parse_lines digitalcore) with [digitalcoreLine]; unfold parseRules.
    match goal with |- context [parseWith digitalcore digitalcoreLine ?s ?line] =>
      destruct (parseWith_parsed digitalcore digitalcoreLine s line
                  _ _ ltac:(vm_compute; reflexivity) (digitalcore_url _))
        as (r & Hr & Hurl)
    end.
    { erewrite (captured_wins _ _ "baseUrl") by (vm_compute; reflexivity).
      by apply hasScheme_append. }
    rewrite Hr; exists r; split; [done|]; rewrite Hurl.
    erewrite (captured_wins _ _ "baseUrl") by (vm_compute; reflexivity).
    erewrite (captured_wins _ _ "torrentId") by (vm_compute; reflexivity).
    unfold bindings; rewrite !lookup_union_r by (vm_compute; reflexivity).
    done.
Qed.

End DefinitionsSpec.
